(** * Docling document converter: orchestration layer

    A shallow embedding of [docling_converter.py]: the [DoclingConverter]
    class ([convert_file], [convert_multiple_files],
    [get_supported_formats]) and the command-line entry point [main].

    The document engine (Docling's [DocumentConverter]) is an external
    collaborator and is taken as an interface.  The parts of Python's
    [pathlib], of the file system and of [logging] that the program uses are
    modelled explicitly, as state passed from call to call. *)

From Stdlib Require Import String Ascii List Bool Arith Lia.
Import ListNotations.
Open Scope string_scope.
Open Scope list_scope.

Set Implicit Arguments.

(** ** Python exceptions and fallible results *)

(** The exception classes the program meets.  Each carries its message or
    the path it is about. *)
Inductive exn : Type :=
| FileNotFoundError (msg : string)
| FileExistsError (path : string)
| NotADirectoryError (path : string)
| IsADirectoryError (path : string)
| ValueError (msg : string)
| EngineError (msg : string).

(** A call either returns a value or raises. *)
Inductive result (A : Type) : Type :=
| Ok (a : A)
| Raise (e : exn).

Arguments Ok {A} a.
Arguments Raise {A} e.

Definition is_ok {A : Type} (r : result A) : bool :=
  match r with Ok _ => true | Raise _ => false end.

(** ** Strings *)

Definition chars (s : string) : list ascii := list_ascii_of_string s.

Fixpoint prefixb (p l : list ascii) : bool :=
  match p, l with
  | [], _ => true
  | _ :: _, [] => false
  | a :: p', b :: l' => Ascii.eqb a b && prefixb p' l'
  end.

(** [name.endswith(ext)]; also what the pattern [*ext] matches when [ext]
    holds no pattern character. *)
Definition endswith (name ext : string) : bool :=
  prefixb (rev (chars ext)) (rev (chars name)).

(** [s.startswith(p)] *)
Definition startswith (s p : string) : bool := prefixb (chars p) (chars s).

(** [c in s] *)
Fixpoint contains_char (c : ascii) (s : string) : bool :=
  match s with
  | EmptyString => false
  | String a rest => Ascii.eqb a c || contains_char c rest
  end.

(** [s.rfind(c)], with [None] for Python's -1. *)
Fixpoint rfind (c : ascii) (s : string) : option nat :=
  match s with
  | EmptyString => None
  | String a rest =>
      match rfind c rest with
      | Some i => Some (S i)
      | None => if Ascii.eqb a c then Some 0 else None
      end
  end.

(** [s.split('/')] *)
Fixpoint split_slash (s : string) : list string :=
  match s with
  | EmptyString => [EmptyString]
  | String c rest =>
      if Ascii.eqb c "/" then EmptyString :: split_slash rest
      else match split_slash rest with
           | [] => [String c EmptyString]
           | h :: t => String c h :: t
           end
  end.

Fixpoint leading_slashes (s : string) : nat :=
  match s with
  | String c rest => if Ascii.eqb c "/" then S (leading_slashes rest) else 0
  | EmptyString => 0
  end.

(** ** pathlib: pure POSIX paths

    A path is its root ([""], ["/"] or ["//"]) and its components.  Parsing
    drops empty components and ["."]; [".."] is kept, as pathlib keeps it. *)

Record PosixPath : Type := mkPath { root : string; parts : list string }.

Definition PosixPath_eq_dec (p q : PosixPath) : {p = q} + {p <> q}.
Proof.
  decide equality; [apply (list_eq_dec string_dec) | apply string_dec].
Defined.

Arguments PosixPath_eq_dec : simpl never.

(** POSIX [splitroot]: exactly two leading slashes are kept, any other
    positive number is one slash. *)
Definition splitroot (s : string) : string :=
  match leading_slashes s with
  | 0 => ""
  | 2 => "//"
  | _ => "/"
  end.

Definition proper_part (x : string) : bool :=
  negb (x =? "") && negb (x =? ".").

(** [Path(s)] *)
Definition Path (s : string) : PosixPath :=
  {| root := splitroot s; parts := filter proper_part (split_slash s) |}.

(** [str(p)] *)
Definition str (p : PosixPath) : string :=
  match root p, parts p with
  | EmptyString, [] => "."
  | r, ps => (r ++ String.concat "/" ps)%string
  end.

(** [p / s]: a rooted right operand replaces the left one. *)
Definition truediv (p : PosixPath) (s : string) : PosixPath :=
  let q := Path s in
  if root q =? "" then {| root := root p; parts := parts p ++ parts q |}
  else q.

(** [p.name]: the last component, empty for the root and for ["."]. *)
Definition name (p : PosixPath) : string := last (parts p) "".

(** [p.parent] *)
Definition parent (p : PosixPath) : PosixPath :=
  {| root := root p; parts := removelast (parts p) |}.

(** The index at which the suffix of a file name starts:
    [i = name.rfind('.')] when [0 < i < len(name) - 1]. *)
Definition suffix_index (nm : string) : option nat :=
  match rfind "." nm with
  | Some i =>
      if ((0 <? i) && (i <? String.length nm - 1))%nat then Some i else None
  | None => None
  end.

(** [PurePath.suffix], on the name. *)
Definition suffix_of (nm : string) : string :=
  match suffix_index nm with
  | Some i => substring i (String.length nm - i) nm
  | None => ""
  end.

(** [PurePath.stem], on the name. *)
Definition stem_of (nm : string) : string :=
  match suffix_index nm with
  | Some i => substring 0 i nm
  | None => nm
  end.

Definition suffix (p : PosixPath) : string := suffix_of (name p).
Definition stem (p : PosixPath) : string := stem_of (name p).

(** [p.with_suffix(sfx)]: rejects a bad suffix and a path with an empty
    name, otherwise replaces the old suffix of the last component, or
    appends when there is none. *)
Definition with_suffix (p : PosixPath) (sfx : string) : result PosixPath :=
  if contains_char "/" sfx then Raise (ValueError ("Invalid suffix " ++ sfx)%string)
  else if (negb (sfx =? "") && negb (startswith sfx ".")) || (sfx =? ".")
  then Raise (ValueError ("Invalid suffix " ++ sfx)%string)
  else
    let nm := name p in
    if nm =? "" then Raise (ValueError (str p ++ " has an empty name")%string)
    else
      let old_suffix := suffix p in
      let nm' :=
        (if old_suffix =? "" then nm ++ sfx
         else substring 0 (String.length nm - String.length old_suffix) nm
              ++ sfx)%string
      in
      Ok {| root := root p; parts := removelast (parts p) ++ [nm'] |}.

(** Well-formed paths: what [Path] produces.  The root is one of the three
    POSIX roots and no component is empty, ["."] or holds a slash. *)
Definition slash_free (s : string) : bool := negb (contains_char "/" s).

Definition wf_part (x : string) : bool := proper_part x && slash_free x.

Definition wf_root (r : string) : bool := (r =? "") || (r =? "/") || (r =? "//").

Definition wf_path (p : PosixPath) : Prop :=
  wf_root (root p) = true /\ Forall (fun x => wf_part x = true) (parts p).

(** ** The file system

    A flat table from paths to nodes, in directory-enumeration order.  The
    current directory and the root always exist.  The table has no symbolic
    links and does not resolve [".."]: a path names the entry stored under
    exactly that path. *)

Inductive node : Type :=
| File (content : string)
| Dir.

Definition FS : Type := list (PosixPath * node).

Fixpoint fs_lookup (fs : FS) (p : PosixPath) : option node :=
  match fs with
  | [] => None
  | (q, n) :: rest => if PosixPath_eq_dec q p then Some n else fs_lookup rest p
  end.

(** ["."], ["/"] and ["//"]: paths without components. *)
Definition is_anchor (p : PosixPath) : bool :=
  match parts p with [] => true | _ :: _ => false end.

(** [p.exists()] *)
Definition fs_exists (fs : FS) (p : PosixPath) : bool :=
  is_anchor p || match fs_lookup fs p with Some _ => true | None => false end.

(** [p.is_dir()] *)
Definition fs_is_dir (fs : FS) (p : PosixPath) : bool :=
  is_anchor p || match fs_lookup fs p with Some Dir => true | _ => false end.

(** Store [content] under [p]: an existing entry keeps its place in the
    enumeration order, a new one goes last. *)
Fixpoint fs_write (fs : FS) (p : PosixPath) (content : string) : FS :=
  match fs with
  | [] => [(p, File content)]
  | (q, n) :: rest =>
      if PosixPath_eq_dec q p then (q, File content) :: rest
      else (q, n) :: fs_write rest p content
  end.

(** [with open(s, 'w', encoding='utf-8') as f: f.write(content)]:
    creates or truncates the file.  [open] fails on the empty path, on a
    directory, when the parent is missing or is not a directory, and on a
    new name with a trailing slash.  Only failures of [open] are modelled: a
    [write] that fails after [open] has truncated the file (an encoding
    error, a full disk) is outside the model. *)
Definition open_write (fs : FS) (s : string) (content : string) : result FS :=
  if s =? "" then Raise (FileNotFoundError s)
  else
    let p := Path s in
    if fs_is_dir fs p then Raise (IsADirectoryError s)
    else if negb (fs_exists fs (parent p)) then Raise (FileNotFoundError s)
    else if negb (fs_is_dir fs (parent p)) then Raise (NotADirectoryError s)
    else if endswith s "/" then Raise (IsADirectoryError s)
    else Ok (fs_write fs p content).

(** [p.mkdir(exist_ok=True)], without [parents=True]: nothing happens when
    [p] is already a directory. *)
Definition mkdir_exist_ok (fs : FS) (p : PosixPath) : result FS :=
  if fs_is_dir fs p then Ok fs
  else if fs_exists fs p then Raise (FileExistsError (str p))
  else if negb (fs_exists fs (parent p)) then Raise (FileNotFoundError (str p))
  else if negb (fs_is_dir fs (parent p)) then Raise (NotADirectoryError (str p))
  else Ok (fs ++ [(p, Dir)]).

Definition is_child_of (d : PosixPath) (p : PosixPath) : bool :=
  negb (is_anchor p) &&
  (if PosixPath_eq_dec (parent p) d then true else false).

(** [os.scandir(d)]: the entries directly inside [d], files and
    directories alike. *)
Definition scandir (fs : FS) (d : PosixPath) : list PosixPath :=
  filter (is_child_of d) (map fst fs).

(** [fnmatch] for the patterns the program builds from a literal
    extension, [*] followed by an extension without pattern characters or
    separators (every extension list in the source is of that kind): the
    name ends with the extension.  Matching is case-sensitive, as on POSIX.
    For an extension that holds [*], [?], [[] or [/] pathlib does something
    else (it may match more, descend into subdirectories or raise
    [ValueError]); statements about what a batch finds are made for literal
    extensions only, see [literal_extensions]. *)
Definition fnmatch (nm pattern : string) : bool :=
  match pattern with
  | String "*" ext => endswith nm ext
  | _ => nm =? pattern
  end.

(** An extension without pattern characters or separators. *)
Definition literal_extension (ext : string) : bool :=
  negb (contains_char "*" ext) && negb (contains_char "?" ext) &&
  negb (contains_char "[" ext) && negb (contains_char "/" ext).

(** The extension lists the model of [glob] is faithful for. *)
Definition literal_extensions (exts : list string) : Prop :=
  Forall (fun ext => literal_extension ext = true) exts.

(** [d.glob("*" + ext)] for a literal extension: one component, so not
    recursive, never raising, and empty when [d] is not a directory.  The
    directory is listed once, when the iteration starts. *)
Definition glob (fs : FS) (d : PosixPath) (pattern : string) : list PosixPath :=
  if fs_is_dir fs d then filter (fun f => fnmatch (name f) pattern) (scandir fs d)
  else [].

(** The paths that have an entry. *)
Definition keys (fs : FS) : list PosixPath := map fst fs.

(** The four facts about the file system that no conversion undoes. *)
Definition stays_dir (d : PosixPath) (fs : FS) : Prop := fs_is_dir fs d = true.
Definition stays_listed (d f : PosixPath) (fs : FS) : Prop := In f (scandir fs d).
Definition stays_file (p : PosixPath) (fs : FS) : Prop :=
  exists c, fs_lookup fs p = Some (File c).
Definition distinct_keys (fs : FS) : Prop := NoDup (keys fs).

(** ** Logging, standard streams and the state of the world *)

(** The thresholds the program sets on the root logger: [INFO] at import,
    [DEBUG] with [--verbose].  Every record the program emits is at level
    INFO or ERROR, so both thresholds let all of them through.

    The world keeps the records given to the logging handler in [w_log];
    the handler of [logging.basicConfig] prints them on standard error.
    [w_stderr] holds only what is written to standard error directly, that
    is the message of [parser.error]. *)
Inductive log_level : Type := DEBUG | INFO.

Inductive log_record : Type :=
| InfoInitialised
    (* INFO  Conversor inicializado correctamente *)
| ErrorInitialising (e : exn)
    (* ERROR Error al inicializar el conversor: {e} *)
| InfoConverting (input_path output_path : string)
    (* INFO  Convirtiendo {input_path} a {output_path} *)
| InfoCompleted (output_path : string)
    (* INFO  Conversion completada: {output_path} *)
| ErrorConverting (e : exn)
    (* ERROR Error durante la conversion: {e} *)
| ErrorBatchFile (file_path : string) (e : exn)
    (* ERROR Error convirtiendo {file_path}: {e} *)
| ErrorMain (e : exn).
    (* ERROR Error: {e} *)

Definition is_error (r : log_record) : bool :=
  match r with
  | ErrorInitialising _ | ErrorConverting _ | ErrorBatchFile _ _ | ErrorMain _ => true
  | InfoInitialised | InfoConverting _ _ | InfoCompleted _ => false
  end.

(** The record the batch loop writes for a file it skips. *)
Definition is_batch_failure (r : log_record) : bool :=
  match r with ErrorBatchFile _ _ => true | _ => false end.

Inductive stdout_line : Type :=
| PrintCompleted (result : string)
    (* Conversion completada: {result} *)
| PrintBatchCompleted (n : nat)
    (* Conversion masiva completada: {n} archivos convertidos *)
| PrintItem (result : string)
    (*   - {result} *)
| PrintFormats (formats : list string).
    (* Formatos soportados: {', '.join(formats)} *)

Record World : Type := mkWorld {
  w_fs : FS;
  w_level : log_level;
  w_log : list log_record;
  w_stdout : list stdout_line;
  w_stderr : list string
}.

Definition set_fs (w : World) (fs : FS) : World :=
  mkWorld fs (w_level w) (w_log w) (w_stdout w) (w_stderr w).

(** [logging.getLogger().setLevel(l)] *)
Definition setLevel (l : log_level) (w : World) : World :=
  mkWorld (w_fs w) l (w_log w) (w_stdout w) (w_stderr w).

(** [logger.info(...)] and [logger.error(...)] *)
Definition logger (r : log_record) (w : World) : World :=
  mkWorld (w_fs w) (w_level w) (w_log w ++ [r]) (w_stdout w) (w_stderr w).

(** [print(...)] *)
Definition print (l : stdout_line) (w : World) : World :=
  mkWorld (w_fs w) (w_level w) (w_log w) (w_stdout w ++ [l]) (w_stderr w).

Definition print_all (ls : list stdout_line) (w : World) : World :=
  fold_left (fun w l => print l w) ls w.

(** ** The document engine *)

Record PdfPipelineOptions : Type := mkOptions {
  do_ocr : bool;
  do_table_structure : bool
}.

(** Docling, as the program uses it: building a [DocumentConverter] from
    the PDF options (which may raise), [convert(path)] reading the file
    system, and [result.document.export_to_markdown()]. *)
Class DocumentEngine : Type := {
  Document : Type;
  DocumentConverter : PdfPipelineOptions -> option exn;
  convert : PdfPipelineOptions -> FS -> string -> result Document;
  export_to_markdown : Document -> result string
}.

(** ** class DoclingConverter *)

Record DoclingConverter : Type := mkConverter {
  use_ocr : bool;
  converter : PdfPipelineOptions
}.

Definition default_file_extensions : list string :=
  [".pdf"; ".docx"; ".pptx"; ".doc"; ".ppt"].

(** [get_supported_formats] *)
Definition get_supported_formats (self : DoclingConverter) : list string :=
  [".pdf"; ".docx"; ".pptx"; ".doc"; ".ppt"; ".html"; ".txt"].

Definition bind {A B : Type} (r : result A) (k : A -> result B) : result B :=
  match r with
  | Ok a => k a
  | Raise e => Raise e
  end.

Notation "x <- r ;; k" := (bind r (fun x => k))
  (at level 61, r at next level, right associativity).

Section Converter.

Context {engine : DocumentEngine}.

(** [__init__] with [_setup_converter]: OCR as requested, table structure
    always on. *)
Definition _setup_converter (use_ocr : bool) (w : World)
  : result DoclingConverter * World :=
  let pdf_options := {| do_ocr := use_ocr; do_table_structure := true |} in
  match DocumentConverter pdf_options with
  | None =>
      (Ok {| use_ocr := use_ocr; converter := pdf_options |},
       logger InfoInitialised w)
  | Some e => (Raise e, logger (ErrorInitialising e) w)
  end.

(** The output path of [convert_file]: the explicit one, else
    [input_file.with_suffix('.md')]. *)
Definition resolve_output (input_file : PosixPath) (output_path : option string)
  : result string :=
  match output_path with
  | None => p <- with_suffix input_file ".md" ;; Ok (str p)
  | Some o => Ok o
  end.

(** The body of the [try] in [convert_file], up to the write. *)
Definition convert_and_write (self : DoclingConverter) (fs : FS)
  (input_path output_path : string) : result FS :=
  result <- convert (converter self) fs input_path ;;
  markdown_content <- export_to_markdown result ;;
  open_write fs output_path markdown_content.

(** [convert_file] *)
Definition convert_file (self : DoclingConverter) (input_path : string)
  (output_path : option string) (w : World) : result string * World :=
  let input_file := Path input_path in
  if negb (fs_exists (w_fs w) input_file) then
    (Raise (FileNotFoundError ("El archivo " ++ input_path ++ " no existe")%string), w)
  else
    match resolve_output input_file output_path with
    | Raise e => (Raise e, w)
    | Ok output_path =>
        let w1 := logger (InfoConverting input_path output_path) w in
        match convert_and_write self (w_fs w1) input_path output_path with
        | Ok fs' =>
            (Ok output_path, logger (InfoCompleted output_path) (set_fs w1 fs'))
        | Raise e => (Raise e, logger (ErrorConverting e) w1)
        end
    end.

(** The output file of one batch item: [output_path / f"{file_path.stem}.md"]. *)
Definition batch_output_file (output_path file_path : PosixPath) : PosixPath :=
  truediv output_path (stem file_path ++ ".md")%string.

(** The inner [for] of [convert_multiple_files]. *)
Fixpoint file_loop (self : DoclingConverter) (output_path : PosixPath)
  (files : list PosixPath) (w : World) (converted_files : list string)
  : list string * World :=
  match files with
  | [] => (converted_files, w)
  | file_path :: rest =>
      let output_file := batch_output_file output_path file_path in
      match convert_file self (str file_path) (Some (str output_file)) w with
      | (Ok result, w') =>
          file_loop self output_path rest w' (converted_files ++ [result])
      | (Raise e, w') =>
          file_loop self output_path rest
            (logger (ErrorBatchFile (str file_path) e) w') converted_files
      end
  end.

(** The outer [for]: one [glob] per extension, on the file system as it is
    when that extension's turn comes. *)
Fixpoint ext_loop (self : DoclingConverter) (input_path output_path : PosixPath)
  (file_extensions : list string) (w : World) (converted_files : list string)
  : list string * World :=
  match file_extensions with
  | [] => (converted_files, w)
  | ext :: rest =>
      let '(converted_files', w') :=
        file_loop self output_path
          (glob (w_fs w) input_path ("*" ++ ext)%string) w converted_files in
      ext_loop self input_path output_path rest w' converted_files'
  end.

(** The output directory of a batch: [input_path / "markdown_output"]
    unless one is given. *)
Definition batch_output_path (input_path : PosixPath) (output_dir : option string)
  : PosixPath :=
  match output_dir with
  | None => truediv input_path "markdown_output"
  | Some d => Path d
  end.

(** [if file_extensions is None: file_extensions = [...]] *)
Definition extensions_or_default (file_extensions : option (list string))
  : list string :=
  match file_extensions with
  | None => default_file_extensions
  | Some l => l
  end.

(** [convert_multiple_files] *)
Definition convert_multiple_files (self : DoclingConverter) (input_dir : string)
  (output_dir : option string) (file_extensions : option (list string))
  (w : World) : result (list string) * World :=
  let file_extensions := extensions_or_default file_extensions in
  let input_path := Path input_dir in
  if negb (fs_exists (w_fs w) input_path) then
    (Raise (FileNotFoundError ("El directorio " ++ input_dir ++ " no existe")%string), w)
  else
    let output_path := batch_output_path input_path output_dir in
    match mkdir_exist_ok (w_fs w) output_path with
    | Raise e => (Raise e, w)
    | Ok fs1 =>
        let '(converted_files, w') :=
          ext_loop self input_path output_path file_extensions (set_fs w fs1) [] in
        (Ok converted_files, w')
    end.

(** ** The command line *)

(** The [argparse] namespace.  [extensions] holds the parser's default,
    [default_file_extensions], when the option is absent. *)
Record Namespace : Type := mkArgs {
  input : option string;
  output : option string;
  directory : option string;
  output_dir : option string;
  ocr : bool;
  extensions : list string;
  verbose : bool
}.

(** Python truthiness of an optional string argument: given and not empty. *)
Definition truthy (a : option string) : bool :=
  match a with
  | Some s => negb (s =? "")
  | None => false
  end.

Definition arg_value (a : option string) : string :=
  match a with Some s => s | None => "" end.

(** How the process ends: [main] returns (exit code 0) or [SystemExit]. *)
Inductive exit : Type :=
| Returned
| SystemExit (code : nat).


(** [parser.error(msg)]: the message goes to standard error and the process
    exits with code 2. *)
Definition parser_error (msg : string) (w : World) : exit * World :=
  (SystemExit 2,
   mkWorld (w_fs w) (w_level w) (w_log w) (w_stdout w) (w_stderr w ++ [msg])).

(** The two modes inside the [try] of [main]. *)
Definition run_mode (converter : DoclingConverter) (args : Namespace) (w : World)
  : result unit * World :=
  if truthy (input args) then
    match convert_file converter (arg_value (input args)) (output args) w with
    | (Ok result, w') => (Ok tt, print (PrintCompleted result) w')
    | (Raise e, w') => (Raise e, w')
    end
  else if truthy (directory args) then
    match convert_multiple_files converter (arg_value (directory args))
            (output_dir args) (Some (extensions args)) w with
    | (Ok results, w') =>
        (Ok tt,
         print_all (map PrintItem results)
           (print (PrintBatchCompleted (length results)) w'))
    | (Raise e, w') => (Raise e, w')
    end
  else (Ok tt, w).

(** [main], from the parsed arguments on (after [parser.parse_args()] has
    returned): the exits of [argparse] itself, on [-h] or on a command line
    it does not accept, happen before and are not part of this function. *)
Definition main (args : Namespace) (w : World) : exit * World :=
  let w := if verbose args then setLevel DEBUG w else w in
  if negb (truthy (input args)) && negb (truthy (directory args)) then
    parser_error "Debe especificar un archivo de entrada o un directorio" w
  else if truthy (input args) && truthy (directory args) then
    parser_error "No puede especificar tanto un archivo como un directorio" w
  else
    match _setup_converter (ocr args) w with
    | (Raise e, w1) => (SystemExit 1, logger (ErrorMain e) w1)
    | (Ok converter, w1) =>
        match run_mode converter args w1 with
        | (Raise e, w2) => (SystemExit 1, logger (ErrorMain e) w2)
        | (Ok _, w2) =>
            (Returned,
             if verbose args
             then print (PrintFormats (get_supported_formats converter)) w2
             else w2)
        end
    end.

End Converter.

(** ** The run of a batch, item by item

    One [attempt] per iteration of the inner loop of
    [convert_multiple_files]: the file [glob] yielded, the output path handed
    to [convert_file], the world before the call, what the call returned,
    and the world when the iteration ends (after the batch's own log record,
    if the call raised). *)

Record attempt : Type := mkAttempt {
  att_file : PosixPath;
  att_output : string;
  att_before : World;
  att_result : result string;
  att_after : World
}.

Section BatchTrace.

Context {engine : DocumentEngine}.

Definition attempt_of (self : DoclingConverter) (output_path file_path : PosixPath)
  (w : World) : attempt :=
  let out := str (batch_output_file output_path file_path) in
  match convert_file self (str file_path) (Some out) w with
  | (Ok r, w') => mkAttempt file_path out w (Ok r) w'
  | (Raise e, w') =>
      mkAttempt file_path out w (Raise e)
        (logger (ErrorBatchFile (str file_path) e) w')
  end.

Fixpoint file_attempts (self : DoclingConverter) (output_path : PosixPath)
  (files : list PosixPath) (w : World) : list attempt :=
  match files with
  | [] => []
  | file_path :: rest =>
      let a := attempt_of self output_path file_path w in
      a :: file_attempts self output_path rest (att_after a)
  end.

(** Attempts that follow one another from [w]: each is the call on its
    file in the world the previous one left. *)
Fixpoint chained (self : DoclingConverter) (output_path : PosixPath) (w : World)
  (atts : list attempt) : Prop :=
  match atts with
  | [] => True
  | a :: rest =>
      a = attempt_of self output_path (att_file a) w /\
      chained self output_path (att_after a) rest
  end.

(** The world once the attempts are over. *)
Definition world_after (atts : list attempt) (w : World) : World :=
  last (map att_after atts) w.

(** One segment of attempts per extension, in the order of the list. *)
Fixpoint batch_attempts (self : DoclingConverter) (input_path output_path : PosixPath)
  (file_extensions : list string) (w : World) : list (string * list attempt) :=
  match file_extensions with
  | [] => []
  | ext :: rest =>
      let atts :=
        file_attempts self output_path
          (glob (w_fs w) input_path ("*" ++ ext)%string) w in
      (ext, atts) :: batch_attempts self input_path output_path rest (world_after atts w)
  end.

(** The segments of a whole [convert_multiple_files] call: none when the
    call raises before its loops. *)
Definition batch_trace (self : DoclingConverter) (input_dir : string)
  (output_dir : option string) (file_extensions : option (list string))
  (w : World) : list (string * list attempt) :=
  let input_path := Path input_dir in
  let output_path := batch_output_path input_path output_dir in
  if fs_exists (w_fs w) input_path then
    match mkdir_exist_ok (w_fs w) output_path with
    | Ok fs1 =>
        batch_attempts self input_path output_path
          (extensions_or_default file_extensions) (set_fs w fs1)
    | Raise _ => []
    end
  else [].

End BatchTrace.

Definition all_attempts (tr : list (string * list attempt)) : list attempt :=
  flat_map snd tr.

(** A fact about the file system that holds before and after an attempt. *)
Definition holds_around (P : FS -> Prop) (a : attempt) : Prop :=
  P (w_fs (att_before a)) /\ P (w_fs (att_after a)).

(** The world in which the [i]-th extension's turn comes: the one the
    attempts of the earlier segments leave, starting from [w]. *)
Definition segment_start (tr : list (string * list attempt)) (i : nat) (w : World)
  : World :=
  world_after (all_attempts (firstn i tr)) w.

(** The output paths of the attempts that returned, in order. *)
Definition successes (atts : list attempt) : list string :=
  flat_map (fun a => match att_result a with Ok r => [r] | Raise _ => [] end) atts.

(** The failure records of the attempts that raised, in order. *)
Definition failures (atts : list attempt) : list log_record :=
  flat_map (fun a => match att_result a with
                     | Ok _ => []
                     | Raise e => [ErrorBatchFile (str (att_file a)) e]
                     end) atts.

(** ** The path resolver in the words of the specification

    "Output path = input path with its extension replaced by [.md]": the
    same directory, and the stem of the name followed by the new
    extension. *)
Definition replace_extension (p : PosixPath) (ext : string) : PosixPath :=
  {| root := root p; parts := removelast (parts p) ++ [(stem p ++ ext)%string] |}.

(** The output path the claim names: the explicit one, else the input path
    with its extension replaced by [.md]. *)
Definition resolved_output (input_path : string) (output_path : option string)
  : string :=
  match output_path with
  | Some o => o
  | None => str (replace_extension (Path input_path) ".md")
  end.



(** C2 as stated, of one batch over distinct files: when exactly one of
    them fails, the batch returns the results of the others and has logged
    exactly one failure, that is one error record. *)
Definition one_failure_logged_once {engine : DocumentEngine}
  (self : DoclingConverter) (input_dir : string) (output_dir : option string)
  (file_extensions : option (list string)) (w : World) : Prop :=
  let atts :=
    all_attempts (batch_trace self input_dir output_dir file_extensions w) in
  NoDup (map att_file atts) ->
  length (failures atts) = 1 ->
  exists results w' delta,
    convert_multiple_files self input_dir output_dir file_extensions w
    = (Ok results, w') /\
    w_log w' = w_log w ++ delta /\
    length results = length atts - 1 /\
    length (filter is_error delta) = 1.

(** The list a batch returned, empty if it raised. *)
Definition fst_list (run : result (list string) * World) : list string :=
  match fst run with Ok l => l | Raise _ => [] end.

(** A path that names its file in one way only, provided the file system
    has no links: parsed (no empty part, no ["."]), relative and without
    [".."]. *)
Definition canonical_path (p : PosixPath) : Prop :=
  wf_path p /\ root p = "" /\ ~ In ".." (parts p).

(** The logging level and the standard streams are the same in both
    worlds. *)
Definition same_streams (w w' : World) : Prop :=
  w_level w' = w_level w /\ w_stdout w' = w_stdout w /\ w_stderr w' = w_stderr w.

(** "With the verbose flag set, the logging level is raised to debug and the
    list of supported extensions is printed", of one run of [main]. *)
Definition verbose_run_prints_formats {engine : DocumentEngine}
  (args : Namespace) (w : World) : Prop :=
  let w' := snd (main args w) in
  w_level w' = DEBUG /\
  exists formats, In (PrintFormats formats) (w_stdout w').

(** ** A test double for the engine and a small file system

    The double turns the content [c] of a file into the text ["# c"] and
    rejects the content ["corrupt"], directories and missing files. *)

Definition stub_engine : DocumentEngine :=
  {| Document := string;
     DocumentConverter := fun _ => None;
     convert := fun _ fs s =>
       match fs_lookup fs (Path s) with
       | Some (File c) =>
           if c =? "corrupt" then Raise (EngineError "corrupt document") else Ok c
       | Some Dir => Raise (IsADirectoryError s)
       | None => Raise (FileNotFoundError s)
       end;
     export_to_markdown := fun d => Ok ("# " ++ d)%string |}.

Definition sample_fs : FS :=
  [ (Path "docs", Dir);
    (Path "docs/a.pdf", File "alpha");
    (Path "docs/b.docx", File "corrupt");
    (Path "docs/c.txt", File "gamma");
    (Path "docs/a.docx", File "delta");
    (Path "report.pdf", File "report") ].

Definition sample_world : World := mkWorld sample_fs INFO [] [] [].

Definition sample_converter : DoclingConverter :=
  {| use_ocr := false; converter := mkOptions false true |}.

(** The file system of [sample_world] once the default output directory of
    a batch over [docs] has been made. *)
Definition sample_fs1 : FS := sample_fs ++ [(Path "docs/markdown_output", Dir)].

(** The attempts of the default batch over [docs]: [a.pdf] converts,
    [b.docx] is rejected, [a.docx] converts. *)
Definition sample_attempts : list attempt :=
  all_attempts
    (@batch_trace stub_engine sample_converter "docs" None None sample_world).

Definition no_attempt : attempt :=
  mkAttempt (Path "") "" sample_world (Ok "") sample_world.



Definition args_verbose_report : Namespace :=
  mkArgs (Some "report.pdf") None None None false default_file_extensions true.

Definition args_verbose_missing : Namespace :=
  mkArgs (Some "missing.pdf") None None None false default_file_extensions true.

(** ** test_docling.py

    The try-out script.  What it prints is returned as a list of lines of
    its own, next to the world. *)

    (* === Prueba completada === *)


Section TestScript.

Context {engine : DocumentEngine}.




End TestScript.

(** ** An engine that answers for one set of options only

    [only_options E opts] is [E] where every use with options other than
    [opts] raises. *)

Definition options_eqb (a b : PdfPipelineOptions) : bool :=
  Bool.eqb (do_ocr a) (do_ocr b) &&
  Bool.eqb (do_table_structure a) (do_table_structure b).

Definition only_options (E : DocumentEngine) (opts : PdfPipelineOptions)
  : DocumentEngine :=
  {| Document := @Document E;
     DocumentConverter := fun o =>
       if options_eqb o opts then @DocumentConverter E o
       else Some (ValueError "options not requested");
     convert := fun o fs s =>
       if options_eqb o opts then @convert E o fs s
       else Raise (ValueError "options not requested");
     export_to_markdown := @export_to_markdown E |}.

(** The file system has only parsed paths as keys. *)
Definition wf_keys (fs : FS) : Prop := Forall wf_path (keys fs).

(** More command lines and worlds to try the properties on. *)
Definition args_report : Namespace :=
  mkArgs (Some "report.pdf") None None None false default_file_extensions false.



Definition args_batch_ocr : Namespace :=
  mkArgs None None (Some "docs") None true default_file_extensions true.

Definition notes_fs : FS :=
  [ (Path "notes.md", File "notes"); (Path "out", Dir);
    (Path "empty", Dir); (Path "plain.txt", File "plain") ].

Definition notes_world : World := mkWorld notes_fs INFO [] [] [].

(** An engine that cannot be constructed. *)
Definition broken_engine : DocumentEngine :=
  {| Document := string;
     DocumentConverter := fun _ => Some (EngineError "models not found");
     convert := fun _ _ s => Raise (EngineError "not constructed");
     export_to_markdown := fun d => Ok d |}.


(** The batch over [docs] that writes into [docs] itself, for [.pdf] and
    then [.md]. *)
Definition reconversion_trace : list (string * list attempt) :=
  @batch_trace stub_engine sample_converter "docs" (Some "docs")
    (Some [".pdf"; ".md"]) sample_world.



(** * Properties *)

(** ** Sanity checks of the path model *)

Example Path_parse : Path "docs//./a.tar.gz" = mkPath "" ["docs"; "a.tar.gz"].
Proof. reflexivity. Qed.

Example Path_root : Path "///x" = mkPath "/" ["x"] /\ Path "//x" = mkPath "//" ["x"].
Proof. split; reflexivity. Qed.

Example str_dot : str (Path "") = "." /\ str (Path "/a/b/") = "/a/b".
Proof. split; reflexivity. Qed.

Example stem_examples :
  stem_of "a.tar.gz" = "a.tar" /\ stem_of ".bashrc" = ".bashrc" /\
  stem_of "a." = "a." /\ stem_of "README" = "README" /\ suffix_of "a.tar.gz" = ".gz".
Proof. repeat split; reflexivity. Qed.

Example with_suffix_examples :
  with_suffix (Path "docs/report.pdf") ".md" = Ok (Path "docs/report.md") /\
  with_suffix (Path "README") ".md" = Ok (Path "README.md") /\
  with_suffix (Path ".bashrc") ".md" = Ok (Path ".bashrc.md") /\
  with_suffix (Path ".") ".md" = Raise (ValueError ". has an empty name").
Proof. repeat split; reflexivity. Qed.

Example sample_single :
  @convert_file stub_engine sample_converter "report.pdf" None sample_world
  = (Ok "report.md",
     mkWorld (sample_fs ++ [(Path "report.md", File "# report")]) INFO
       [InfoConverting "report.pdf" "report.md"; InfoCompleted "report.md"] [] []).
Proof. vm_compute. reflexivity. Qed.

Example sample_batch :
  fst (@convert_multiple_files stub_engine sample_converter "docs" None None sample_world)
  = Ok ["docs/markdown_output/a.md"; "docs/markdown_output/a.md"]
  /\ w_log (snd (@convert_multiple_files stub_engine sample_converter "docs" None None
                  sample_world))
     = [ InfoConverting "docs/a.pdf" "docs/markdown_output/a.md";
         InfoCompleted "docs/markdown_output/a.md";
         InfoConverting "docs/b.docx" "docs/markdown_output/b.md";
         ErrorConverting (EngineError "corrupt document");
         ErrorBatchFile "docs/b.docx" (EngineError "corrupt document");
         InfoConverting "docs/a.docx" "docs/markdown_output/a.md";
         InfoCompleted "docs/markdown_output/a.md" ].
Proof. vm_compute. split; reflexivity. Qed.

(** ** Strings and paths *)

Lemma rfind_lt (c : ascii) (s : string) (i : nat) :
  rfind c s = Some i -> i < String.length s.
Proof.
  revert i; induction s as [|a s IH]; simpl; intros i H; [discriminate|].
  destruct (rfind c s) as [j|].
  - injection H as <-. specialize (IH j eq_refl). lia.
  - destruct (Ascii.eqb a c); [injection H as <-; lia | discriminate].
Qed.

Lemma substring_split (s : string) (i : nat) :
  i <= String.length s ->
  (substring 0 i s ++ substring i (String.length s - i) s)%string = s.
Proof.
  revert i; induction s as [|a s IH]; intros [|i] H; simpl in *; try reflexivity; try lia.
  - f_equal. generalize (IH 0 (Nat.le_0_l _)). simpl.
    rewrite Nat.sub_0_r. destruct s; simpl; auto.
  - f_equal. apply IH. lia.
Qed.

Lemma length_substring_tail (s : string) (i : nat) :
  i <= String.length s ->
  String.length (substring i (String.length s - i) s) = String.length s - i.
Proof.
  revert i; induction s as [|a s IH]; intros [|i] H; simpl in *; try reflexivity; try lia.
  - f_equal. specialize (IH 0 (Nat.le_0_l _)). rewrite Nat.sub_0_r in IH.
    destruct s; simpl in *; auto.
  - apply IH. lia.
Qed.

Lemma suffix_index_bound (nm : string) (i : nat) :
  suffix_index nm = Some i -> 0 < i /\ i < String.length nm - 1.
Proof.
  unfold suffix_index. destruct (rfind "." nm) as [j|]; [|discriminate].
  destruct (0 <? j)%nat eqn:H0; simpl; [|discriminate].
  destruct (j <? String.length nm - 1)%nat eqn:H1; [|discriminate].
  intros [= <-]. apply Nat.ltb_lt in H0, H1. auto.
Qed.

(** A name is its stem followed by its suffix. *)
Lemma stem_suffix (nm : string) : (stem_of nm ++ suffix_of nm)%string = nm.
Proof.
  unfold stem_of, suffix_of. destruct (suffix_index nm) as [i|] eqn:E.
  - apply suffix_index_bound in E. apply substring_split. lia.
  - clear E. induction nm; simpl; congruence.
Qed.

Lemma suffix_of_length (nm : string) (i : nat) :
  suffix_index nm = Some i -> String.length (suffix_of nm) = String.length nm - i.
Proof.
  intros E. unfold suffix_of. rewrite E. apply suffix_index_bound in E.
  apply length_substring_tail. lia.
Qed.

(** [with_suffix('.md')] replaces the extension, in the sense of
    [replace_extension]. *)
Lemma with_suffix_md (p : PosixPath) :
  name p <> "" -> with_suffix p ".md" = Ok (replace_extension p ".md").
Proof.
  intros Hn. unfold with_suffix, replace_extension. simpl.
  destruct (String.eqb_spec (name p) "") as [|_]; [contradiction|].
  unfold suffix, stem, stem_of.
  destruct (suffix_index (name p)) as [i|] eqn:E.
  - pose proof (suffix_of_length _ E) as L. pose proof (suffix_index_bound _ E) as B.
    destruct (String.eqb_spec (suffix_of (name p)) "") as [Z|_].
    + rewrite Z in L. simpl in L. lia.
    + rewrite L. replace (String.length (name p) - (String.length (name p) - i)) with i by lia.
      reflexivity.
  - unfold suffix_of. rewrite E. reflexivity.
Qed.

Lemma with_suffix_anchor (p : PosixPath) (sfx : string) :
  name p = "" -> is_ok (with_suffix p sfx) = false.
Proof.
  intros Hn. unfold with_suffix.
  destruct (contains_char "/" sfx); [reflexivity|].
  destruct ((negb (sfx =? "") && negb (startswith sfx ".")) || (sfx =? ".")); [reflexivity|].
  rewrite Hn. reflexivity.
Qed.


(** ** Parsing and printing paths *)

Lemma contains_char_app (c : ascii) (a b : string) :
  contains_char c (a ++ b) = contains_char c a || contains_char c b.
Proof.
  induction a as [|x a IH]; simpl; [reflexivity|]. now rewrite IH, orb_assoc.
Qed.

Lemma split_slash_slash_free (x : string) :
  slash_free x = true -> split_slash x = [x].
Proof.
  unfold slash_free. induction x as [|a x IH]; simpl; [reflexivity|].
  destruct (Ascii.eqb a "/"); simpl; [discriminate|].
  intros H. now rewrite (IH H).
Qed.

Lemma split_slash_app (x rest : string) :
  slash_free x = true ->
  split_slash (x ++ String "/" rest) = x :: split_slash rest.
Proof.
  unfold slash_free. induction x as [|a x IH]; simpl; [reflexivity|].
  destruct (Ascii.eqb a "/"); simpl; [discriminate|].
  intros H. now rewrite (IH H).
Qed.

Lemma split_slash_all_free (s : string) :
  Forall (fun x => slash_free x = true) (split_slash s).
Proof.
  induction s as [|a s IH]; simpl.
  - repeat constructor.
  - destruct (Ascii.eqb a "/") eqn:E.
    + constructor; [reflexivity | exact IH].
    + destruct (split_slash s) as [|h t].
      * constructor; [|constructor]. unfold slash_free. simpl. now rewrite E.
      * inversion IH; subst. constructor; [|assumption].
        unfold slash_free in *. simpl. now rewrite E.
Qed.

Lemma wf_part_free (x : string) : wf_part x = true -> slash_free x = true.
Proof. unfold wf_part. intros H. now apply andb_prop in H. Qed.

Lemma wf_part_proper (x : string) : wf_part x = true -> proper_part x = true.
Proof. unfold wf_part. intros H. now apply andb_prop in H. Qed.

Lemma split_slash_concat (ps : list string) :
  Forall (fun x => wf_part x = true) ps -> ps <> [] ->
  split_slash (String.concat "/" ps) = ps.
Proof.
  induction ps as [|x ps IH]; intros Hwf Hne; [contradiction|].
  inversion Hwf as [|? ? Hx Hps]; subst. destruct ps as [|y ps].
  - simpl. now apply split_slash_slash_free, wf_part_free.
  - change (String.concat "/" (x :: y :: ps))
      with (x ++ String "/" (String.concat "/" (y :: ps)))%string.
    rewrite split_slash_app by now apply wf_part_free.
    rewrite IH; [reflexivity | assumption | discriminate].
Qed.

Lemma leading_slashes_concat (ps : list string) :
  Forall (fun x => wf_part x = true) ps ->
  leading_slashes (String.concat "/" ps) = 0.
Proof.
  intros Hwf. destruct ps as [|x ps]; [reflexivity|].
  inversion Hwf as [|? ? Hx _]; subst.
  destruct x as [|a x]; [discriminate Hx|].
  assert (Ha : Ascii.eqb a "/" = false).
  { apply wf_part_free in Hx. unfold slash_free in Hx. simpl in Hx.
    destruct (Ascii.eqb a "/"); [discriminate | reflexivity]. }
  destruct ps; simpl; now rewrite Ha.
Qed.

Lemma filter_proper_wf (ps : list string) :
  Forall (fun x => wf_part x = true) ps -> filter proper_part ps = ps.
Proof.
  induction 1 as [|x ps Hx _ IH]; simpl; [reflexivity|].
  now rewrite (wf_part_proper _ Hx), IH.
Qed.

(** Parsing always gives a well-formed path. *)
Lemma Path_wf (s : string) : wf_path (Path s).
Proof.
  split.
  - unfold Path, splitroot. simpl.
    destruct (leading_slashes s) as [|[|[|n]]]; reflexivity.
  - unfold Path. simpl. apply Forall_forall. intros x Hx.
    apply filter_In in Hx as [Hin Hp].
    pose proof (split_slash_all_free s) as Hf. rewrite Forall_forall in Hf.
    unfold wf_part. now rewrite Hp, (Hf x Hin).
Qed.

Lemma leading_slashes_slash (s : string) :
  leading_slashes (String "/" s) = S (leading_slashes s).
Proof. reflexivity. Qed.

Lemma split_slash_slash (s : string) :
  split_slash (String "/" s) = "" :: split_slash s.
Proof. reflexivity. Qed.

Lemma filter_proper_empty (l : list string) :
  filter proper_part ("" :: l) = filter proper_part l.
Proof. reflexivity. Qed.

Lemma Path_concat (ps : list string) :
  Forall (fun x => wf_part x = true) ps -> ps <> [] ->
  Path (String.concat "/" ps) = mkPath "" ps.
Proof.
  intros Hps Hne. unfold Path, splitroot.
  rewrite leading_slashes_concat, split_slash_concat, filter_proper_wf by auto.
  reflexivity.
Qed.

Lemma Path_slash_concat (ps : list string) :
  Forall (fun x => wf_part x = true) ps ->
  Path (String "/" (String.concat "/" ps)) = mkPath "/" ps.
Proof.
  intros Hps. unfold Path, splitroot.
  rewrite leading_slashes_slash, split_slash_slash, filter_proper_empty,
    leading_slashes_concat by auto.
  destruct ps as [|x ps]; [reflexivity|].
  rewrite split_slash_concat, filter_proper_wf by (auto; discriminate).
  reflexivity.
Qed.

Lemma Path_slash_slash_concat (ps : list string) :
  Forall (fun x => wf_part x = true) ps ->
  Path (String "/" (String "/" (String.concat "/" ps))) = mkPath "//" ps.
Proof.
  intros Hps. unfold Path, splitroot.
  rewrite !leading_slashes_slash, !split_slash_slash, !filter_proper_empty,
    leading_slashes_concat by auto.
  destruct ps as [|x ps]; [reflexivity|].
  rewrite split_slash_concat, filter_proper_wf by (auto; discriminate).
  reflexivity.
Qed.

(** Printing a well-formed path and parsing it again gives it back. *)
Lemma Path_str (p : PosixPath) : wf_path p -> Path (str p) = p.
Proof.
  destruct p as [r ps]. intros [Hr Hps]. simpl in Hr, Hps.
  unfold wf_root in Hr.
  destruct (String.eqb_spec r "") as [->|_]; simpl in Hr.
  - destruct ps as [|x ps]; [reflexivity|].
    change (str {| root := ""; parts := x :: ps |})
      with (String.concat "/" (x :: ps)).
    apply Path_concat; [assumption | discriminate].
  - destruct (String.eqb_spec r "/") as [->|_]; simpl in Hr.
    + change (str {| root := "/"; parts := ps |})
        with (String "/" (String.concat "/" ps)).
      now apply Path_slash_concat.
    + apply String.eqb_eq in Hr. subst r.
      change (str {| root := "//"; parts := ps |})
        with (String "/" (String "/" (String.concat "/" ps))).
      now apply Path_slash_slash_concat.
Qed.

Lemma Forall_removelast {A : Type} (P : A -> Prop) (l : list A) :
  Forall P l -> Forall P (removelast l).
Proof.
  induction 1 as [|x l Hx Hl IH]; simpl; [constructor|].
  destruct l; [constructor | constructor; assumption].
Qed.

Lemma Forall_last {A : Type} (P : A -> Prop) (l : list A) (d : A) :
  Forall P l -> P d -> P (last l d).
Proof.
  induction 1 as [|x l Hx Hl IH]; intros Hd; simpl; [assumption|].
  destruct l; [assumption | now apply IH].
Qed.

Lemma wf_name_free (p : PosixPath) : wf_path p -> slash_free (name p) = true.
Proof.
  intros [_ Hps]. unfold name.
  apply (@Forall_last _ (fun x => slash_free x = true)); [|reflexivity].
  eapply Forall_impl; [|exact Hps]. intros x. apply wf_part_free.
Qed.

Lemma length_append (a b : string) :
  String.length (a ++ b) = String.length a + String.length b.
Proof. induction a as [|x a IH]; simpl; [reflexivity | now rewrite IH]. Qed.

(** The path with the extension replaced is well formed, so it is the path
    one gets back from its printed form. *)
Lemma replace_extension_wf (p : PosixPath) :
  wf_path p -> wf_path (replace_extension p ".md").
Proof.
  intros Hwf. pose proof (wf_name_free Hwf) as Hn. destruct Hwf as [Hr Hps].
  split; [exact Hr|]. unfold replace_extension. simpl.
  apply Forall_app. split; [now apply Forall_removelast|].
  constructor; [|constructor]. unfold wf_part. apply andb_true_intro. split.
  - unfold proper_part.
    assert (L : 3 <= String.length (stem p ++ ".md"))
      by (rewrite length_append; simpl; lia).
    destruct (String.eqb_spec (stem p ++ ".md") "") as [E|_];
      [rewrite E in L; simpl in L; lia|].
    destruct (String.eqb_spec (stem p ++ ".md") ".") as [E|_];
      [rewrite E in L; simpl in L; lia|].
    reflexivity.
  - unfold slash_free in *. rewrite contains_char_app. simpl. rewrite orb_false_r.
    rewrite <- (stem_suffix (name p)), contains_char_app in Hn.
    unfold stem. destruct (contains_char "/" (stem_of (name p))); [discriminate Hn|].
    reflexivity.
Qed.

(** ** The file system *)

Lemma fs_lookup_write_same (fs : FS) (p : PosixPath) (c : string) :
  fs_lookup (fs_write fs p c) p = Some (File c).
Proof.
  induction fs as [|[q n] fs IH]; simpl.
  - destruct (PosixPath_eq_dec p p); congruence.
  - destruct (PosixPath_eq_dec q p) as [->|Hq]; simpl.
    + destruct (PosixPath_eq_dec p p); congruence.
    + destruct (PosixPath_eq_dec q p); congruence.
Qed.

Lemma fs_lookup_write_other (fs : FS) (p q : PosixPath) (c : string) :
  q <> p -> fs_lookup (fs_write fs p c) q = fs_lookup fs q.
Proof.
  intros Hq. induction fs as [|[k n] fs IH]; simpl.
  - destruct (PosixPath_eq_dec p q); congruence.
  - destruct (PosixPath_eq_dec k p) as [->|Hk]; simpl.
    + destruct (PosixPath_eq_dec p q); congruence.
    + destruct (PosixPath_eq_dec k q); congruence.
Qed.

Lemma open_write_ok (fs fs' : FS) (s c : string) :
  open_write fs s c = Ok fs' ->
  fs' = fs_write fs (Path s) c /\ fs_is_dir fs (Path s) = false.
Proof.
  unfold open_write. destruct (s =? ""); [discriminate|].
  destruct (fs_is_dir fs (Path s)); simpl; [discriminate|].
  destruct (fs_exists fs (parent (Path s))); simpl; [|discriminate].
  destruct (fs_is_dir fs (parent (Path s))); simpl; [|discriminate].
  destruct (endswith s "/"); [discriminate|].
  intros [= <-]. auto.
Qed.

(** ** Single-file conversion *)

Section ConverterProperties.

Context {engine : DocumentEngine}.

(** What a successful [convert_file] went through. *)
Lemma convert_file_ok (self : DoclingConverter) (input_path : string)
  (output_path : option string) (w w' : World) (r : string) :
  convert_file self input_path output_path w = (Ok r, w') ->
  fs_exists (w_fs w) (Path input_path) = true /\
  resolve_output (Path input_path) output_path = Ok r /\
  exists doc md,
    convert (converter self) (w_fs w) input_path = Ok doc /\
    export_to_markdown doc = Ok md /\
    open_write (w_fs w) r md = Ok (w_fs w') /\
    w' = mkWorld (w_fs w') (w_level w)
           (w_log w ++ [InfoConverting input_path r; InfoCompleted r])
           (w_stdout w) (w_stderr w).
Proof.
  unfold convert_file.
  destruct (fs_exists (w_fs w) (Path input_path)); simpl; [|discriminate].
  destruct (resolve_output (Path input_path) output_path) as [out|e]; [|discriminate].
  unfold convert_and_write, bind; simpl.
  destruct (convert (converter self) (w_fs w) input_path) as [doc|e]; [|discriminate].
  destruct (export_to_markdown doc) as [md|e] eqn:Hmd; [|discriminate].
  destruct (open_write (w_fs w) out md) as [fs'|e] eqn:Hw; [|discriminate].
  intros [= <- <-]. repeat split; auto.
  exists doc, md. unfold logger, set_fs. simpl. rewrite <- app_assoc. auto.
Qed.

(** What [convert_file] does when every step goes through. *)
Lemma convert_file_runs (self : DoclingConverter) (input_path : string)
  (output_path : option string) (w : World) (r : string)
  (doc : Document) (md : string) (fs' : FS) :
  fs_exists (w_fs w) (Path input_path) = true ->
  resolve_output (Path input_path) output_path = Ok r ->
  convert (converter self) (w_fs w) input_path = Ok doc ->
  export_to_markdown doc = Ok md ->
  open_write (w_fs w) r md = Ok fs' ->
  convert_file self input_path output_path w
  = (Ok r, mkWorld fs' (w_level w)
             (w_log w ++ [InfoConverting input_path r; InfoCompleted r])
             (w_stdout w) (w_stderr w)).
Proof.
  intros He Hr Hc Hx Hw. unfold convert_file. rewrite He, Hr. simpl.
  unfold convert_and_write, bind. simpl. rewrite Hc, Hx, Hw.
  unfold logger, set_fs. simpl. rewrite <- app_assoc. reflexivity.
Qed.

Lemma resolve_output_resolved (input_path : string) (output_path : option string)
  (r : string) :
  resolve_output (Path input_path) output_path = Ok r ->
  r = resolved_output input_path output_path.
Proof.
  destruct output_path as [o|]; simpl.
  - congruence.
  - unfold bind. destruct (String.eqb_spec (name (Path input_path)) "") as [Hn|Hn].
    + pose proof (with_suffix_anchor (Path input_path) ".md" Hn) as Hw.
      destruct (with_suffix (Path input_path) ".md"); simpl in Hw; discriminate.
    + rewrite (with_suffix_md _ Hn). congruence.
Qed.

Lemma resolved_output_resolve (input_path : string) (output_path : option string) :
  (output_path = None -> name (Path input_path) <> "") ->
  resolve_output (Path input_path) output_path
  = Ok (resolved_output input_path output_path).
Proof.
  destruct output_path as [o|]; simpl; intros Hn; [reflexivity|].
  rewrite (with_suffix_md _ (Hn eq_refl)). reflexivity.
Qed.

Lemma replace_extension_parent (p : PosixPath) (ext : string) :
  parent (replace_extension p ext) = parent p.
Proof.
  unfold parent, replace_extension. simpl. rewrite removelast_last. reflexivity.
Qed.

Lemma replace_extension_name (p : PosixPath) (ext : string) :
  name (replace_extension p ext) = (stem p ++ ext)%string.
Proof.
  unfold name, replace_extension. simpl. apply last_last.
Qed.

(** C1.  For an input path that exists, the output path of [convert_file] is
    the explicit output path, verbatim, when one is supplied, and otherwise
    the input path with its extension replaced by [.md]: the path in the
    same directory whose name is the stem of the input followed by [.md].
    Whenever [convert_file] returns, it returns exactly that path, the
    Markdown of the converted document is in the file at that path, and no
    other entry of the file system has changed.  And it does return, with
    that path, whenever the engine converts the input and the file can be
    opened for writing (for the derived path the input needs a name to put
    the extension on, which every file has). *)
Theorem convert_file_output_path (self : DoclingConverter) (input_path : string)
  (output_path : option string) (w : World) :
  fs_exists (w_fs w) (Path input_path) = true ->
  let out := resolved_output input_path output_path in
  (forall o, output_path = Some o -> out = o) /\
  (output_path = None ->
     Path out = replace_extension (Path input_path) ".md" /\
     parent (Path out) = parent (Path input_path) /\
     name (Path out) = (stem (Path input_path) ++ ".md")%string) /\
  (forall r w',
     convert_file self input_path output_path w = (Ok r, w') ->
     r = out /\
     exists doc md,
       convert (converter self) (w_fs w) input_path = Ok doc /\
       export_to_markdown doc = Ok md /\
       fs_lookup (w_fs w') (Path out) = Some (File md) /\
       forall q, q <> Path out -> fs_lookup (w_fs w') q = fs_lookup (w_fs w) q) /\
  (forall doc md fs',
     (output_path = None -> name (Path input_path) <> "") ->
     convert (converter self) (w_fs w) input_path = Ok doc ->
     export_to_markdown doc = Ok md ->
     open_write (w_fs w) out md = Ok fs' ->
     exists w', convert_file self input_path output_path w = (Ok out, w')).
Proof.
  intros Hex out. split; [|split; [|split]].
  - intros o ->. reflexivity.
  - intros ->. unfold out, resolved_output.
    rewrite Path_str by apply replace_extension_wf, Path_wf.
    split; [reflexivity|]. split.
    + apply replace_extension_parent.
    + apply replace_extension_name.
  - intros r w' H.
    apply convert_file_ok in H as (_ & Hr & doc & md & Hc & Hx & Hw & _).
    apply resolve_output_resolved in Hr. fold out in Hr. subst r.
    split; [reflexivity|].
    apply open_write_ok in Hw as [Hfs _].
    exists doc, md. split; [exact Hc|]. split; [exact Hx|]. split.
    + rewrite Hfs. apply fs_lookup_write_same.
    + intros q Hq. rewrite Hfs. now apply fs_lookup_write_other.
  - intros doc md fs' Hn Hc Hx Hw. eexists.
    apply convert_file_runs with (doc := doc) (md := md) (fs' := fs'); auto.
    now apply resolved_output_resolve.
Qed.


End ConverterProperties.

(** ** Batch conversion: the loops and their trace *)

Lemma last_cons_default {A : Type} (x d : A) (l : list A) :
  last (x :: l) d = last l x.
Proof.
  revert x d; induction l as [|y l IH]; intros x d; [reflexivity|].
  change (last (x :: y :: l) d) with (last (y :: l) d).
  rewrite (IH y d), (IH y x). reflexivity.
Qed.

Lemma last_app_default {A : Type} (l1 l2 : list A) (d : A) :
  last (l1 ++ l2) d = last l2 (last l1 d).
Proof.
  revert d; induction l1 as [|x l1 IH]; intros d; [reflexivity|].
  rewrite <- app_comm_cons, !last_cons_default. apply IH.
Qed.

Lemma world_after_cons (a : attempt) (atts : list attempt) (w : World) :
  world_after (a :: atts) w = world_after atts (att_after a).
Proof. unfold world_after. simpl map. apply last_cons_default. Qed.

Lemma world_after_app (atts1 atts2 : list attempt) (w : World) :
  world_after (atts1 ++ atts2) w = world_after atts2 (world_after atts1 w).
Proof. unfold world_after. rewrite map_app. apply last_app_default. Qed.

Lemma successes_app (atts1 atts2 : list attempt) :
  successes (atts1 ++ atts2) = successes atts1 ++ successes atts2.
Proof. apply flat_map_app. Qed.

Lemma failures_app (atts1 atts2 : list attempt) :
  failures (atts1 ++ atts2) = failures atts1 ++ failures atts2.
Proof. apply flat_map_app. Qed.

(** Every attempt either yields a result or a failure record, never both. *)
Lemma successes_failures_length (atts : list attempt) :
  length (successes atts) + length (failures atts) = length atts.
Proof.
  induction atts as [|a atts IH]; [reflexivity|].
  unfold successes, failures in *. simpl.
  destruct (att_result a); simpl; rewrite ?length_app; simpl; lia.
Qed.

Section BatchProperties.

Context {engine : DocumentEngine}.

Variable self : DoclingConverter.

(** The three ways a call of [convert_file] can go: it raises before
    touching anything, it raises inside its [try] after logging, or it
    writes the output and returns its path. *)
Lemma convert_file_cases (input_path : string) (output_path : option string)
  (w : World) :
  (exists e, convert_file self input_path output_path w = (Raise e, w)) \/
  (exists r e,
     convert_file self input_path output_path w
     = (Raise e, logger (ErrorConverting e) (logger (InfoConverting input_path r) w))) \/
  (exists r md fs',
     resolve_output (Path input_path) output_path = Ok r /\
     open_write (w_fs w) r md = Ok fs' /\
     convert_file self input_path output_path w
     = (Ok r, logger (InfoCompleted r)
                (set_fs (logger (InfoConverting input_path r) w) fs'))).
Proof.
  unfold convert_file.
  destruct (fs_exists (w_fs w) (Path input_path)); simpl; [|left; eauto].
  destruct (resolve_output (Path input_path) output_path) as [out|e]; [|left; eauto].
  unfold convert_and_write, bind; simpl.
  destruct (convert (converter self) (w_fs w) input_path) as [doc|e];
    [|right; left; eauto].
  destruct (export_to_markdown doc) as [md|e]; [|right; left; eauto].
  destruct (open_write (w_fs w) out md) as [fs'|e] eqn:Hw; [|right; left; eauto].
  right; right. exists out, md, fs'. auto.
Qed.

(** [convert_file] only appends to the log, never a batch record, and
    leaves the logging level and the standard streams alone.  It logs no
    error when it returns, and at most one, its own, when it raises. *)
Lemma convert_file_frame (input_path : string) (output_path : option string)
  (w : World) :
  let w' := snd (convert_file self input_path output_path w) in
  w_level w' = w_level w /\ w_stdout w' = w_stdout w /\ w_stderr w' = w_stderr w /\
  exists delta,
    w_log w' = w_log w ++ delta /\
    filter is_batch_failure delta = [] /\
    length (filter is_error delta) <= 1 /\
    (is_ok (fst (convert_file self input_path output_path w)) = true ->
     filter is_error delta = []).
Proof.
  destruct (convert_file_cases input_path output_path w)
    as [[e H]|[(r & e & H)|(r & md & fs' & _ & _ & H)]]; rewrite H; simpl.
  - repeat split; auto. exists []. rewrite app_nil_r. simpl. auto.
  - repeat split; auto. exists [InfoConverting input_path r; ErrorConverting e].
    rewrite <- app_assoc. simpl. repeat split; auto. discriminate.
  - repeat split; auto. exists [InfoConverting input_path r; InfoCompleted r].
    rewrite <- app_assoc. simpl. auto.
Qed.

Variable output_path : PosixPath.

Lemma attempt_of_call (file_path : PosixPath) (w : World) :
  let a := attempt_of self output_path file_path w in
  att_file a = file_path /\
  att_output a = str (batch_output_file output_path file_path) /\
  att_before a = w /\
  att_result a = fst (convert_file self (str file_path) (Some (att_output a)) w) /\
  att_after a =
    match att_result a with
    | Ok _ => snd (convert_file self (str file_path) (Some (att_output a)) w)
    | Raise e =>
        logger (ErrorBatchFile (str file_path) e)
          (snd (convert_file self (str file_path) (Some (att_output a)) w))
    end.
Proof.
  unfold attempt_of.
  destruct (convert_file self (str file_path)
              (Some (str (batch_output_file output_path file_path))) w)
    as [[r|e] w'] eqn:H; simpl; rewrite H; auto.
Qed.

(** The inner loop returns the results of the attempts that succeeded,
    appended in order, and ends in the world of the last attempt. *)
Lemma file_loop_attempts (files : list PosixPath) :
  forall (w : World) (converted_files : list string),
    file_loop self output_path files w converted_files
    = (converted_files ++ successes (file_attempts self output_path files w),
       world_after (file_attempts self output_path files w) w).
Proof.
  induction files as [|f files IH]; intros w conv; simpl.
  - rewrite app_nil_r. reflexivity.
  - rewrite world_after_cons. unfold attempt_of at 1 3 4.
    destruct (convert_file self (str f)
                (Some (str (batch_output_file output_path f))) w)
      as [[r|e] w'] eqn:H.
    + rewrite IH. unfold successes at 2. simpl. fold (successes
        (file_attempts self output_path files
           (att_after (attempt_of self output_path f w)))).
      unfold attempt_of. rewrite H. simpl. rewrite <- app_assoc. reflexivity.
    + rewrite IH. unfold successes at 2. simpl.
      unfold attempt_of. rewrite H. simpl. reflexivity.
Qed.

Variable input_path : PosixPath.

Lemma ext_loop_attempts (file_extensions : list string) :
  forall (w : World) (converted_files : list string),
    ext_loop self input_path output_path file_extensions w converted_files
    = (converted_files
       ++ successes (all_attempts
                       (batch_attempts self input_path output_path file_extensions w)),
       world_after (all_attempts
                      (batch_attempts self input_path output_path file_extensions w)) w).
Proof.
  induction file_extensions as [|ext exts IH]; intros w conv; simpl.
  - rewrite app_nil_r. reflexivity.
  - rewrite file_loop_attempts, IH. unfold all_attempts. simpl.
    rewrite successes_app, world_after_app, app_assoc. reflexivity.
Qed.

(** The log of the inner loop: what was there, then new records, among
    which the batch records are exactly the failures, in order.  Each
    failure stands for one or two error records: the batch record and,
    before it, the one [convert_file] writes when it raises inside its
    [try]. *)
Lemma file_attempts_log (files : list PosixPath) :
  forall w : World,
    let atts := file_attempts self output_path files w in
    exists delta,
      w_log (world_after atts w) = w_log w ++ delta /\
      filter is_batch_failure delta = failures atts /\
      length (failures atts) <= length (filter is_error delta)
      <= 2 * length (failures atts).
Proof.
  induction files as [|f files IH]; intros w; simpl.
  - exists []. rewrite app_nil_r. simpl. auto.
  - rewrite world_after_cons.
    destruct (attempt_of_call f w) as (Hf & Ho & Hb & Hr & Ha).
    destruct (convert_file_frame (str f)
                (Some (att_output (attempt_of self output_path f w))) w)
      as (_ & _ & _ & d0 & Hd0 & Hn0 & He0 & Hok0).
    destruct (IH (att_after (attempt_of self output_path f w)))
      as (d1 & Hd1 & Hn1 & He1).
    unfold failures at 1 2 3. simpl.
    fold (failures (file_attempts self output_path files
                      (att_after (attempt_of self output_path f w)))).
    rewrite Hd1, <- Hn1, Ha, Hf. rewrite <- Hn1 in He1. rewrite <- Hr in Hok0.
    destruct (att_result (attempt_of self output_path f w)) as [r|e]; simpl.
    + exists (d0 ++ d1). rewrite Hd0, <- app_assoc, !filter_app, Hn0.
      rewrite (Hok0 eq_refl). simpl. auto.
    + exists (d0 ++ [ErrorBatchFile (str f) e] ++ d1).
      rewrite Hd0, <- !app_assoc, !filter_app, Hn0, !length_app. simpl.
      repeat split; auto; lia.
Qed.

Lemma batch_attempts_log (file_extensions : list string) :
  forall w : World,
    let atts :=
      all_attempts (batch_attempts self input_path output_path file_extensions w) in
    exists delta,
      w_log (world_after atts w) = w_log w ++ delta /\
      filter is_batch_failure delta = failures atts /\
      length (failures atts) <= length (filter is_error delta)
      <= 2 * length (failures atts).
Proof.
  induction file_extensions as [|ext exts IH]; intros w.
  - exists []. simpl. rewrite app_nil_r. auto.
  - unfold all_attempts. cbn [batch_attempts flat_map snd].
    rewrite world_after_app, failures_app.
    destruct (file_attempts_log (glob (w_fs w) input_path ("*" ++ ext)) w)
      as (d0 & Hd0 & Hn0 & He0).
    destruct (IH (world_after
                    (file_attempts self output_path
                       (glob (w_fs w) input_path ("*" ++ ext)) w) w))
      as (d1 & Hd1 & Hn1 & He1).
    exists (d0 ++ d1). unfold all_attempts in Hd1, Hn1, He1.
    rewrite Hd1, Hd0, <- app_assoc, !filter_app, Hn0, Hn1, !length_app.
    repeat split; auto; lia.
Qed.

End BatchProperties.

(** ** What conversions leave in place *)

Lemma fs_lookup_none (fs : FS) (p : PosixPath) :
  fs_lookup fs p = None <-> ~ In p (keys fs).
Proof.
  induction fs as [|[q n] fs IH]; simpl.
  - tauto.
  - destruct (PosixPath_eq_dec q p) as [->|Hq].
    + split; [discriminate | tauto].
    + rewrite IH. tauto.
Qed.

Lemma fs_write_keys_in (fs : FS) (p k : PosixPath) (c : string) :
  In k (keys (fs_write fs p c)) <-> k = p \/ In k (keys fs).
Proof.
  induction fs as [|[q n] fs IH]; simpl.
  - intuition congruence.
  - destruct (PosixPath_eq_dec q p) as [->|Hq]; simpl.
    + intuition congruence.
    + rewrite IH. intuition congruence.
Qed.

Lemma fs_write_NoDup (fs : FS) (p : PosixPath) (c : string) :
  NoDup (keys fs) -> NoDup (keys (fs_write fs p c)).
Proof.
  induction fs as [|[q n] fs IH]; simpl; intros H.
  - constructor; [tauto | constructor].
  - inversion H as [|? ? Hn Hd]; subst.
    destruct (PosixPath_eq_dec q p) as [->|Hq]; simpl.
    + constructor; auto.
    + constructor; [|auto]. fold (keys (fs_write fs p c)).
      rewrite fs_write_keys_in. intros [->|Hin]; tauto.
Qed.

Lemma fs_lookup_app (fs1 fs2 : FS) (p : PosixPath) :
  fs_lookup (fs1 ++ fs2) p
  = match fs_lookup fs1 p with Some n => Some n | None => fs_lookup fs2 p end.
Proof.
  induction fs1 as [|[q n] fs1 IH]; simpl; [reflexivity|].
  destruct (PosixPath_eq_dec q p); auto.
Qed.

Lemma open_write_stays_dir (d : PosixPath) (fs fs' : FS) (s c : string) :
  stays_dir d fs -> open_write fs s c = Ok fs' -> stays_dir d fs'.
Proof.
  unfold stays_dir. intros Hd Hw. apply open_write_ok in Hw as [-> Hn].
  destruct (PosixPath_eq_dec d (Path s)) as [->|Hne]; [congruence|].
  unfold fs_is_dir in *. rewrite fs_lookup_write_other; auto.
Qed.

Lemma open_write_stays_listed (d f : PosixPath) (fs fs' : FS) (s c : string) :
  stays_listed d f fs -> open_write fs s c = Ok fs' -> stays_listed d f fs'.
Proof.
  unfold stays_listed, scandir. intros Hd Hw. apply open_write_ok in Hw as [-> _].
  apply filter_In in Hd as [Hin Hc]. apply filter_In. split; auto.
  apply fs_write_keys_in. auto.
Qed.

Lemma open_write_stays_file (p : PosixPath) (fs fs' : FS) (s c : string) :
  stays_file p fs -> open_write fs s c = Ok fs' -> stays_file p fs'.
Proof.
  unfold stays_file. intros [c0 Hp] Hw. apply open_write_ok in Hw as [-> _].
  destruct (PosixPath_eq_dec p (Path s)) as [->|Hne].
  - exists c. apply fs_lookup_write_same.
  - exists c0. rewrite fs_lookup_write_other; auto.
Qed.

Lemma open_write_distinct_keys (fs fs' : FS) (s c : string) :
  distinct_keys fs -> open_write fs s c = Ok fs' -> distinct_keys fs'.
Proof.
  unfold distinct_keys. intros Hd Hw. apply open_write_ok in Hw as [-> _].
  now apply fs_write_NoDup.
Qed.

(** [mkdir(exist_ok=True)] leaves a directory behind, changes nothing when
    the directory is already there, and undoes none of the facts above. *)
Lemma mkdir_exist_ok_cases (fs fs1 : FS) (p : PosixPath) :
  mkdir_exist_ok fs p = Ok fs1 ->
  (fs_is_dir fs p = true /\ fs1 = fs) \/
  (fs_lookup fs p = None /\ is_anchor p = false /\ fs1 = fs ++ [(p, Dir)]).
Proof.
  unfold mkdir_exist_ok. destruct (fs_is_dir fs p) eqn:Hd.
  - intros [= <-]. auto.
  - destruct (fs_exists fs p) eqn:He; [discriminate|].
    destruct (fs_exists fs (parent p)); simpl; [|discriminate].
    destruct (fs_is_dir fs (parent p)); simpl; [|discriminate].
    intros [= <-]. right. unfold fs_exists in He.
    apply orb_false_iff in He as [Ha Hl].
    destruct (fs_lookup fs p); [discriminate Hl | auto].
Qed.

Lemma mkdir_exist_ok_is_dir (fs fs1 : FS) (p : PosixPath) :
  mkdir_exist_ok fs p = Ok fs1 -> fs_is_dir fs1 p = true.
Proof.
  intros H. apply mkdir_exist_ok_cases in H as [[Hd ->]|(Hl & Ha & ->)]; auto.
  unfold fs_is_dir. rewrite fs_lookup_app, Hl. simpl.
  destruct (PosixPath_eq_dec p p); [apply orb_true_r | congruence].
Qed.

Lemma mkdir_exist_ok_stays_dir (d : PosixPath) (fs fs1 : FS) (p : PosixPath) :
  stays_dir d fs -> mkdir_exist_ok fs p = Ok fs1 -> stays_dir d fs1.
Proof.
  unfold stays_dir. intros Hd H.
  apply mkdir_exist_ok_cases in H as [[_ ->]|(Hl & Ha & ->)]; auto.
  unfold fs_is_dir in *. rewrite fs_lookup_app.
  destruct (is_anchor d); [reflexivity|]. simpl in *.
  destruct (fs_lookup fs d) as [[|]|]; auto; discriminate.
Qed.

Lemma mkdir_exist_ok_stays_listed (d f : PosixPath) (fs fs1 : FS) (p : PosixPath) :
  stays_listed d f fs -> mkdir_exist_ok fs p = Ok fs1 -> stays_listed d f fs1.
Proof.
  unfold stays_listed, scandir. intros Hd H.
  apply mkdir_exist_ok_cases in H as [[_ ->]|(Hl & Ha & ->)]; auto.
  apply filter_In in Hd as [Hin Hc]. apply filter_In. split; auto.
  rewrite map_app. apply in_or_app. auto.
Qed.

Lemma mkdir_exist_ok_distinct_keys (fs fs1 : FS) (p : PosixPath) :
  distinct_keys fs -> mkdir_exist_ok fs p = Ok fs1 -> distinct_keys fs1.
Proof.
  unfold distinct_keys, keys. intros Hd H.
  apply mkdir_exist_ok_cases in H as [[_ ->]|(Hl & Ha & ->)]; auto.
  apply fs_lookup_none in Hl. rewrite map_app. simpl.
  apply NoDup_rev in Hd. rewrite <- (rev_involutive (map fst fs ++ [p])).
  apply NoDup_rev. rewrite rev_app_distr. simpl. constructor; auto.
  rewrite <- in_rev. exact Hl.
Qed.

(** ** Directory listings *)

Lemma fnmatch_star (nm ext : string) :
  fnmatch nm ("*" ++ ext) = endswith nm ext.
Proof. reflexivity. Qed.

Lemma glob_In (fs : FS) (d f : PosixPath) (ext : string) :
  In f (glob fs d ("*" ++ ext)) <->
  fs_is_dir fs d = true /\ In f (scandir fs d) /\ endswith (name f) ext = true.
Proof.
  unfold glob. destruct (fs_is_dir fs d).
  - rewrite filter_In, fnmatch_star. tauto.
  - simpl. intuition congruence.
Qed.

Lemma scandir_In (fs : FS) (d f : PosixPath) :
  In f (scandir fs d) <-> In f (keys fs) /\ is_anchor f = false /\ parent f = d.
Proof.
  unfold scandir, is_child_of. rewrite filter_In.
  unfold keys. destruct (is_anchor f); cbn [negb andb].
  - split; intros (? & H); [discriminate H | destruct H; discriminate].
  - destruct (PosixPath_eq_dec (parent f) d) as [He|Hn].
    + split; intros (Hin & H); repeat split; auto.
    + split; intros (? & H); [discriminate H | destruct H; contradiction].
Qed.

Lemma glob_NoDup (fs : FS) (d : PosixPath) (pattern : string) :
  distinct_keys fs -> NoDup (glob fs d pattern).
Proof.
  intros H. unfold glob. destruct (fs_is_dir fs d); [|constructor].
  unfold scandir. now apply NoDup_filter, NoDup_filter.
Qed.

(** ** Facts that hold all along a batch *)

Section TraceInvariant.

Context {engine : DocumentEngine}.

Variable self : DoclingConverter.
Variable P : FS -> Prop.
Hypothesis P_write :
  forall fs fs' s c, P fs -> open_write fs s c = Ok fs' -> P fs'.

Lemma convert_file_invariant (input_path : string) (output_path : option string)
  (w : World) :
  P (w_fs w) -> P (w_fs (snd (convert_file self input_path output_path w))).
Proof.
  intros H.
  destruct (convert_file_cases self input_path output_path w)
    as [[e E]|[(r & e & E)|(r & md & fs' & _ & Hw & E)]]; rewrite E; simpl; eauto.
Qed.

Lemma attempt_of_invariant (output_path file_path : PosixPath) (w : World) :
  P (w_fs w) -> P (w_fs (att_after (attempt_of self output_path file_path w))).
Proof.
  intros H. destruct (attempt_of_call self output_path file_path w)
    as (_ & _ & _ & _ & Ha).
  rewrite Ha. destruct (att_result _); simpl; now apply convert_file_invariant.
Qed.

Lemma file_attempts_invariant (output_path : PosixPath) (files : list PosixPath) :
  forall w : World,
    P (w_fs w) ->
    Forall (holds_around P) (file_attempts self output_path files w) /\
    P (w_fs (world_after (file_attempts self output_path files w) w)).
Proof.
  induction files as [|f files IH]; intros w H; simpl.
  - split; [constructor | exact H].
  - rewrite world_after_cons.
    pose proof (attempt_of_invariant output_path f w H) as Ha.
    destruct (IH _ Ha) as [IH1 IH2]. split; auto.
    constructor; auto. split; auto.
    destruct (attempt_of_call self output_path f w) as (_ & _ & Hb & _).
    rewrite Hb. exact H.
Qed.

Lemma batch_attempts_invariant (input_path output_path : PosixPath)
  (file_extensions : list string) :
  forall w : World,
    P (w_fs w) ->
    Forall (holds_around P)
      (all_attempts (batch_attempts self input_path output_path file_extensions w)) /\
    P (w_fs (world_after
               (all_attempts
                  (batch_attempts self input_path output_path file_extensions w)) w)).
Proof.
  induction file_extensions as [|ext exts IH]; intros w H.
  - split; [constructor | exact H].
  - unfold all_attempts. cbn [batch_attempts flat_map snd].
    destruct (file_attempts_invariant output_path
                (glob (w_fs w) input_path ("*" ++ ext)) w H) as [H1 H2].
    destruct (IH _ H2) as [H3 H4]. rewrite world_after_app. split; auto.
    apply Forall_app. auto.
Qed.

Lemma segment_start_invariant (input_path output_path : PosixPath)
  (file_extensions : list string) :
  forall (w : World) (i : nat),
    P (w_fs w) ->
    P (w_fs (segment_start
               (batch_attempts self input_path output_path file_extensions w) i w)).
Proof.
  unfold segment_start.
  induction file_extensions as [|ext exts IH]; intros w [|i] H; try exact H.
  cbn [batch_attempts firstn]. unfold all_attempts. cbn [flat_map snd].
  rewrite world_after_app. apply IH.
  now apply file_attempts_invariant.
Qed.

End TraceInvariant.

(** ** The shape of the trace *)

Section TraceShape.

Context {engine : DocumentEngine}.

Variable self : DoclingConverter.
Variables input_path output_path : PosixPath.

Lemma file_attempts_files (files : list PosixPath) :
  forall w : World, map att_file (file_attempts self output_path files w) = files.
Proof.
  induction files as [|f files IH]; intros w; simpl; [reflexivity|].
  destruct (attempt_of_call self output_path f w) as (Hf & _).
  rewrite Hf, IH. reflexivity.
Qed.

(** Each attempt is the call of [convert_file] on its file, in the world the
    previous attempt left, with the output path derived from the stem. *)
Lemma file_attempts_chained (files : list PosixPath) :
  forall w : World, chained self output_path w (file_attempts self output_path files w).
Proof.
  induction files as [|f files IH]; intros w; simpl; [exact I|]. split; auto.
  destruct (attempt_of_call self output_path f w) as (Hf & _).
  rewrite Hf. reflexivity.
Qed.

Lemma chained_app (atts1 atts2 : list attempt) :
  forall w : World,
    chained self output_path w atts1 ->
    chained self output_path (world_after atts1 w) atts2 ->
    chained self output_path w (atts1 ++ atts2).
Proof.
  induction atts1 as [|a atts1 IH]; intros w H1 H2; simpl in *; [exact H2|].
  destruct H1 as [Ha H1]. split; [exact Ha|]. apply IH; auto.
  rewrite world_after_cons in H2. exact H2.
Qed.

Lemma batch_attempts_exts (file_extensions : list string) :
  forall w : World,
    map fst (batch_attempts self input_path output_path file_extensions w)
    = file_extensions.
Proof.
  induction file_extensions as [|ext exts IH]; intros w; simpl; [reflexivity|].
  now rewrite IH.
Qed.

(** The [i]-th segment holds the attempts on what [glob] yields for the
    [i]-th extension when its turn comes. *)
Lemma batch_attempts_nth (file_extensions : list string) :
  forall (w : World) (i : nat) (ext : string) (atts : list attempt),
    let tr := batch_attempts self input_path output_path file_extensions w in
    nth_error tr i = Some (ext, atts) ->
    nth_error file_extensions i = Some ext /\
    atts = file_attempts self output_path
             (glob (w_fs (segment_start tr i w)) input_path ("*" ++ ext))
             (segment_start tr i w).
Proof.
  unfold segment_start.
  induction file_extensions as [|e exts IH]; intros w [|i] ext atts;
    cbn [batch_attempts nth_error firstn]; try discriminate.
  - intros [= <- <-]. auto.
  - intros H. apply IH in H as [H1 H2]. split; [exact H1|].
    unfold all_attempts in *. cbn [flat_map snd]. rewrite world_after_app.
    exact H2.
Qed.

Lemma batch_attempts_chained (file_extensions : list string) :
  forall w : World,
    chained self output_path w
      (all_attempts (batch_attempts self input_path output_path file_extensions w)).
Proof.
  induction file_extensions as [|e exts IH]; intros w.
  - exact I.
  - unfold all_attempts. cbn [batch_attempts flat_map snd].
    apply chained_app; [apply file_attempts_chained | apply IH].
Qed.

(** Every attempted file was yielded by [glob] for one of the extensions. *)
Lemma batch_attempts_matched (file_extensions : list string) (w : World)
  (a : attempt) :
  In a (all_attempts (batch_attempts self input_path output_path file_extensions w)) ->
  exists ext w_i,
    In ext file_extensions /\
    In (att_file a) (glob (w_fs w_i) input_path ("*" ++ ext)).
Proof.
  intros H. unfold all_attempts in H. apply in_flat_map in H as ([ext atts] & Hseg & Ha).
  apply In_nth_error in Hseg as [i Hi].
  destruct (batch_attempts_nth file_extensions w i Hi) as [He Hatts].
  exists ext. eexists. split; [eapply nth_error_In; eauto|].
  simpl in Ha. rewrite Hatts in Ha.
  apply (in_map att_file) in Ha. rewrite file_attempts_files in Ha. exact Ha.
Qed.

End TraceShape.

(** ** Extensions *)

Lemma prefixb_comparable (l : list ascii) :
  forall p q : list ascii,
    prefixb p l = true -> prefixb q l = true ->
    prefixb p q = true \/ prefixb q p = true.
Proof.
  induction l as [|c l IH]; intros [|a p] [|b q] Hp Hq; simpl in *; auto;
    try discriminate.
  apply andb_prop in Hp as [Ha Hp]. apply andb_prop in Hq as [Hb Hq].
  apply Ascii.eqb_eq in Ha, Hb. subst a b. rewrite Ascii.eqb_refl. simpl.
  now apply IH.
Qed.

(** Two endings of the same name: one is an ending of the other. *)
Lemma endswith_comparable (nm e1 e2 : string) :
  endswith nm e1 = true -> endswith nm e2 = true ->
  endswith e2 e1 = true \/ endswith e1 e2 = true.
Proof. unfold endswith. apply prefixb_comparable. Qed.

Lemma default_extension_excludes (nm ext : string) :
  In ext default_file_extensions ->
  endswith nm ext = true ->
  endswith nm ".html" = false /\ endswith nm ".txt" = false.
Proof.
  intros Hin Hends.
  assert (forall other,
             endswith other ext = false -> endswith ext other = false ->
             endswith nm other = false) as Hcmp.
  { intros other H1 H2. destruct (endswith nm other) eqn:E; [|reflexivity].
    destruct (endswith_comparable nm ext other Hends E); congruence. }
  simpl in Hin.
  repeat (destruct Hin as [<-|Hin]; [split; apply Hcmp; reflexivity|]).
  contradiction.
Qed.

(** ** Batch conversion: the claims *)

Lemma successes_segments (tr : list (string * list attempt)) :
  successes (all_attempts tr) = flat_map (fun seg => successes (snd seg)) tr.
Proof.
  unfold all_attempts. induction tr as [|seg tr IH]; simpl; [reflexivity|].
  now rewrite successes_app, IH.
Qed.

Section BatchClaims.

Context {engine : DocumentEngine}.

Variable self : DoclingConverter.

Lemma chained_In (output_path : PosixPath) (atts : list attempt) :
  forall (w : World) (a : attempt),
    chained self output_path w atts -> In a atts ->
    a = attempt_of self output_path (att_file a) (att_before a).
Proof.
  induction atts as [|b atts IH]; intros w a Hc Hin; [contradiction|].
  destruct Hc as [Hb Hc]. destruct Hin as [<-|Hin]; [|eauto].
  destruct (attempt_of_call self output_path (att_file b) w) as (_ & _ & Hw & _).
  rewrite <- Hb in Hw. rewrite Hw. exact Hb.
Qed.

(** What an attempt records about its call. *)
Lemma attempt_call (output_path : PosixPath) (a : attempt) :
  a = attempt_of self output_path (att_file a) (att_before a) ->
  att_output a = str (batch_output_file output_path (att_file a)) /\
  att_result a
  = fst (convert_file self (str (att_file a)) (Some (att_output a)) (att_before a)) /\
  (forall r, att_result a = Ok r ->
     r = att_output a /\
     convert_file self (str (att_file a)) (Some (att_output a)) (att_before a)
     = (Ok r, att_after a)) /\
  (forall e, att_result a = Raise e ->
     att_after a
     = logger (ErrorBatchFile (str (att_file a)) e)
         (snd (convert_file self (str (att_file a)) (Some (att_output a))
                 (att_before a)))).
Proof.
  intros Ha.
  destruct (attempt_of_call self output_path (att_file a) (att_before a))
    as (_ & Ho & _ & Hr & Hw).
  rewrite <- Ha in Ho, Hr, Hw. split; [exact Ho|]. split; [exact Hr|]. split.
  - intros r H. rewrite H in Hw.
    destruct (convert_file self (str (att_file a)) (Some (att_output a)) (att_before a))
      as [r0 w0] eqn:E.
    rewrite Hr in H. simpl in H, Hw. subst r0 w0.
    split; [|reflexivity]. apply convert_file_ok in E as (_ & E & _).
    simpl in E. congruence.
  - intros e He. rewrite He in Hw. exact Hw.
Qed.

(** The results are the output paths of the attempts that did not fail. *)
Lemma successes_outputs (output_path : PosixPath) (atts : list attempt) :
  forall w : World,
    chained self output_path w atts ->
    successes atts = map att_output (filter (fun a => is_ok (att_result a)) atts).
Proof.
  induction atts as [|a atts IH]; intros w Hc; [reflexivity|].
  pose proof (chained_In output_path (a :: atts) w a Hc (or_introl eq_refl)) as Ha.
  destruct Hc as [_ Hc]. apply attempt_call in Ha as (_ & _ & Hok & _).
  unfold successes in *. simpl. rewrite (IH _ Hc).
  destruct (att_result a) as [r|e] eqn:E; simpl; [|reflexivity].
  destruct (Hok r eq_refl) as [-> _]. reflexivity.
Qed.

(** A batch that gets past its two checks runs its loops to the end. *)
Lemma convert_multiple_files_runs (input_dir : string) (output_dir : option string)
  (file_extensions : option (list string)) (w : World) (fs1 : FS) :
  fs_exists (w_fs w) (Path input_dir) = true ->
  mkdir_exist_ok (w_fs w) (batch_output_path (Path input_dir) output_dir) = Ok fs1 ->
  let tr := batch_trace self input_dir output_dir file_extensions w in
  tr = batch_attempts self (Path input_dir)
         (batch_output_path (Path input_dir) output_dir)
         (extensions_or_default file_extensions) (set_fs w fs1) /\
  convert_multiple_files self input_dir output_dir file_extensions w
  = (Ok (successes (all_attempts tr)),
     world_after (all_attempts tr) (set_fs w fs1)).
Proof.
  intros He Hm. unfold batch_trace, convert_multiple_files. rewrite He, Hm. simpl.
  split; [reflexivity|]. rewrite ext_loop_attempts. reflexivity.
Qed.

(** C2, as the code has it.  For extensions without pattern characters, a
    batch whose input directory exists and whose output directory could be
    made returns, whatever happens to the single files.  A file is attempted
    once for each extension of the list that it matches.  The result lists,
    in order, the output paths of the attempts that did not fail; for each
    attempt that failed the batch wrote one failure record naming the file,
    in order, and went on.  So results and failures add up to the N
    attempts, and when exactly one attempt fails there are N-1 results and
    exactly one failure record of the batch in the log.  A failure can show
    as two error records: its batch record and, when [convert_file] raised
    inside its [try], the record [convert_file] wrote before raising. *)
Theorem batch_failure_policy (input_dir : string) (output_dir : option string)
  (file_extensions : option (list string)) (w : World) (fs1 : FS) :
  literal_extensions (extensions_or_default file_extensions) ->
  fs_exists (w_fs w) (Path input_dir) = true ->
  mkdir_exist_ok (w_fs w) (batch_output_path (Path input_dir) output_dir) = Ok fs1 ->
  let atts := all_attempts (batch_trace self input_dir output_dir file_extensions w) in
  exists results w' delta,
    convert_multiple_files self input_dir output_dir file_extensions w
    = (Ok results, w') /\
    results = map att_output (filter (fun a => is_ok (att_result a)) atts) /\
    w_log w' = w_log w ++ delta /\
    filter is_batch_failure delta = failures atts /\
    length results + length (failures atts) = length atts /\
    length (failures atts) <= length (filter is_error delta)
    <= 2 * length (failures atts) /\
    (length (failures atts) = 1 ->
     length results = length atts - 1 /\
     length (filter is_batch_failure delta) = 1).
Proof.
  intros _ He Hm atts.
  destruct (convert_multiple_files_runs input_dir output_dir file_extensions w He Hm)
    as [Htr Hrun].
  fold atts in Hrun.
  destruct (batch_attempts_log self (batch_output_path (Path input_dir) output_dir)
              (Path input_dir) (extensions_or_default file_extensions) (set_fs w fs1))
    as (delta & Hlog & Hfail & Herr).
  rewrite <- Htr in Hlog, Hfail, Herr. fold atts in Hlog, Hfail, Herr.
  assert (Hs : successes atts
               = map att_output (filter (fun a => is_ok (att_result a)) atts)).
  { unfold atts. rewrite Htr.
    eapply successes_outputs, batch_attempts_chained. }
  exists (successes atts), (world_after atts (set_fs w fs1)), delta.
  pose proof (successes_failures_length atts) as Hlen.
  split; [exact Hrun|]. split; [exact Hs|]. split; [exact Hlog|].
  split; [exact Hfail|]. split; [exact Hlen|]. split; [exact Herr|].
  intros H1. rewrite Hfail. split; [lia | exact H1].
Qed.

Lemma default_output_path (input_path : PosixPath) :
  parent (batch_output_path input_path None) = input_path /\
  name (batch_output_path input_path None) = "markdown_output".
Proof.
  destruct input_path as [r ps]. unfold batch_output_path, truediv, parent, name.
  simpl. rewrite removelast_last, last_last. auto.
Qed.

(** C5.  For extensions without pattern characters, the result of a batch
    is the concatenation, extension by
    extension in the order of the configured list, of the outputs of the
    successful attempts of each extension; the attempts of an extension go
    through the files in the order [glob] yields them when that extension's
    turn comes.  Nothing is deduplicated: a file in the input directory is
    attempted under every extension of the list that its name matches, that
    is ends with, and, file-system entries being distinct, exactly once
    under each. *)
Theorem batch_order (input_dir : string) (output_dir : option string)
  (file_extensions : option (list string)) (w : World) (fs1 : FS) :
  literal_extensions (extensions_or_default file_extensions) ->
  fs_exists (w_fs w) (Path input_dir) = true ->
  mkdir_exist_ok (w_fs w) (batch_output_path (Path input_dir) output_dir) = Ok fs1 ->
  let input_path := Path input_dir in
  let tr := batch_trace self input_dir output_dir file_extensions w in
  fst (convert_multiple_files self input_dir output_dir file_extensions w)
  = Ok (flat_map (fun seg => successes (snd seg)) tr) /\
  map fst tr = extensions_or_default file_extensions /\
  (forall i ext atts,
     nth_error tr i = Some (ext, atts) ->
     map att_file atts
     = glob (w_fs (segment_start tr i (set_fs w fs1))) input_path ("*" ++ ext)) /\
  (forall f i ext atts,
     fs_is_dir (w_fs w) input_path = true ->
     In f (scandir (w_fs w) input_path) ->
     nth_error tr i = Some (ext, atts) ->
     endswith (name f) ext = true ->
     In f (map att_file atts) /\
     (distinct_keys (w_fs w) ->
      count_occ PosixPath_eq_dec (map att_file atts) f = 1)).
Proof.
  intros _ He Hm input_path tr.
  destruct (convert_multiple_files_runs input_dir output_dir file_extensions w He Hm)
    as [Htr Hrun].
  fold tr in Htr, Hrun.
  set (output_path := batch_output_path (Path input_dir) output_dir) in *.
  set (exts := extensions_or_default file_extensions) in *.
  set (w1 := set_fs w fs1) in *.
  assert (Hfiles : forall i ext atts,
             nth_error tr i = Some (ext, atts) ->
             map att_file atts
             = glob (w_fs (segment_start tr i w1)) input_path ("*" ++ ext)).
  { intros i ext atts Hi. rewrite Htr in Hi.
    destruct (batch_attempts_nth self input_path output_path exts w1 i Hi) as [_ Ha].
    rewrite Htr, Ha at 1. apply file_attempts_files. }
  split; [|split; [|split]].
  - rewrite Hrun. simpl. now rewrite successes_segments.
  - rewrite Htr. apply batch_attempts_exts.
  - exact Hfiles.
  - intros f i ext atts Hd Hf Hi Hends. rewrite (Hfiles i ext atts Hi).
    assert (Hd1 : stays_dir input_path (w_fs w1))
      by (eapply mkdir_exist_ok_stays_dir; eauto).
    assert (Hf1 : stays_listed input_path f (w_fs w1))
      by (eapply mkdir_exist_ok_stays_listed; eauto).
    rewrite Htr.
    pose proof (segment_start_invariant self (stays_dir input_path)
                  (@open_write_stays_dir input_path) input_path output_path
                  exts w1 i Hd1) as Hdi.
    pose proof (segment_start_invariant self (stays_listed input_path f)
                  (@open_write_stays_listed input_path f) input_path output_path
                  exts w1 i Hf1) as Hfi.
    assert (Hin : In f (glob (w_fs (segment_start
                                      (batch_attempts self input_path output_path exts w1)
                                      i w1)) input_path ("*" ++ ext)))
      by (apply glob_In; auto).
    split; [exact Hin|]. intros Hk.
    assert (Hk1 : distinct_keys (w_fs w1))
      by (eapply mkdir_exist_ok_distinct_keys; eauto).
    pose proof (segment_start_invariant self distinct_keys
                  open_write_distinct_keys input_path output_path
                  exts w1 i Hk1) as Hki.
    apply NoDup_count_occ'; [|exact Hin]. now apply glob_NoDup.
Qed.

Lemma chained_app_inv (output_path : PosixPath) (atts1 atts2 : list attempt) :
  forall w : World,
    chained self output_path w (atts1 ++ atts2) ->
    chained self output_path w atts1 /\
    chained self output_path (world_after atts1 w) atts2.
Proof.
  induction atts1 as [|a atts1 IH]; intros w H; simpl in *; [auto|].
  destruct H as [Ha H]. apply IH in H as [H1 H2].
  rewrite world_after_cons. auto.
Qed.

Lemma chained_head (output_path : PosixPath) (a : attempt) (atts : list attempt)
  (w : World) :
  chained self output_path w (a :: atts) -> att_before a = w.
Proof.
  intros [Ha _].
  destruct (attempt_of_call self output_path (att_file a) w) as (_ & _ & Hw & _).
  rewrite <- Ha in Hw. exact Hw.
Qed.

Lemma chained_invariant (P : FS -> Prop) (output_path : PosixPath)
  (atts : list attempt) :
  (forall fs fs' s c, P fs -> open_write fs s c = Ok fs' -> P fs') ->
  forall w : World,
    chained self output_path w atts -> P (w_fs w) ->
    P (w_fs (world_after atts w)).
Proof.
  intros HP. induction atts as [|a atts IH]; intros w Hc H; [exact H|].
  rewrite world_after_cons. destruct Hc as [Ha Hc]. apply IH; [exact Hc|].
  rewrite Ha. apply attempt_of_invariant; auto.
Qed.

Lemma successes_cons_ok (a : attempt) (atts : list attempt) (r : string) :
  att_result a = Ok r -> successes (a :: atts) = r :: successes atts.
Proof. intros H. unfold successes. simpl. rewrite H. reflexivity. Qed.

(** What a successful attempt leaves at its output path. *)
Lemma attempt_written (output_path : PosixPath) (a : attempt) (r : string) :
  a = attempt_of self output_path (att_file a) (att_before a) ->
  att_result a = Ok r ->
  r = str (batch_output_file output_path (att_file a)) /\
  exists doc md,
    convert (converter self) (w_fs (att_before a)) (str (att_file a)) = Ok doc /\
    export_to_markdown doc = Ok md /\
    fs_lookup (w_fs (att_after a)) (Path r) = Some (File md).
Proof.
  intros Ha Hr. apply attempt_call in Ha as (Ho & _ & Hok & _).
  destruct (Hok r Hr) as [-> Hcall]. split; [exact Ho|].
  apply convert_file_ok in Hcall as (_ & _ & doc & md & Hc & Hx & Hw & _).
  apply open_write_ok in Hw as [Hfs _].
  exists doc, md. split; [exact Hc|]. split; [exact Hx|].
  rewrite Hfs. apply fs_lookup_write_same.
Qed.

(** What a successful attempt wrote is still a file when the attempts are
    over. *)
Lemma attempt_output_stays (output_path : PosixPath) (atts : list attempt)
  (w : World) (a : attempt) (r : string) :
  chained self output_path w atts -> In a atts -> att_result a = Ok r ->
  stays_file (Path r) (w_fs (world_after atts w)).
Proof.
  intros Hch Hin Hr. apply in_split in Hin as (pre & post & ->).
  apply chained_app_inv in Hch as [_ Hch].
  pose proof (chained_head Hch) as Hb. destruct Hch as [Ha Hpost].
  rewrite <- Hb in Ha.
  destruct (@attempt_written output_path a r Ha Hr) as (_ & doc & md & _ & _ & Hl).
  rewrite world_after_app, world_after_cons.
  apply (chained_invariant (stays_file (Path r)) output_path post
           (@open_write_stays_file (Path r)) (att_after a) Hpost).
  exists md. exact Hl.
Qed.

(** A call with an explicit output path touches no other entry. *)
Lemma convert_file_writes_output (input_path out : string) (w : World)
  (q : PosixPath) :
  q <> Path out ->
  fs_lookup (w_fs (snd (convert_file self input_path (Some out) w))) q
  = fs_lookup (w_fs w) q.
Proof.
  intros Hq.
  destruct (convert_file_cases self input_path (Some out) w)
    as [[e E]|[(r & e & E)|(r & md & fs' & Hr & Hw & E)]]; rewrite E; simpl;
    try reflexivity.
  simpl in Hr. injection Hr as <-.
  apply open_write_ok in Hw as [-> _]. now apply fs_lookup_write_other.
Qed.

(** Attempts with other output paths leave an entry as it is. *)
Lemma chained_untouched (output_path q : PosixPath) (atts : list attempt) :
  forall w : World,
    chained self output_path w atts ->
    (forall b, In b atts -> Path (att_output b) <> q) ->
    fs_lookup (w_fs (world_after atts w)) q = fs_lookup (w_fs w) q.
Proof.
  induction atts as [|a atts IH]; intros w Hch H; [reflexivity|].
  rewrite world_after_cons. destruct Hch as [Ha Hch].
  rewrite (IH _ Hch) by (intros b Hb; apply H; now right).
  assert (Hq : q <> Path (att_output a))
    by (intros ->; now apply (H a (or_introl eq_refl))).
  destruct (attempt_of_call self output_path (att_file a) w)
    as (_ & _ & _ & _ & Haf).
  rewrite <- Ha in Haf. rewrite Haf.
  destruct (att_result a); simpl; now apply convert_file_writes_output.
Qed.

(** C4.  In a batch whose input directory exists, the output directory is
    the one given or, when none is given, the entry named [markdown_output]
    directly under the input directory.  It is made before the loops start:
    if it cannot be made [convert_multiple_files] raises and the world is
    untouched; if it is already a directory making it changes nothing.
    Otherwise (for extensions without pattern characters)
    [convert_multiple_files] runs its attempts from the world in which the
    directory has been made and returns their output paths; the directory
    is there before every attempt and in the world the call leaves.  Each
    attempt calls [convert_file] on its file with the output path
    [<output_dir>/<stem>.md]; that is the path a successful attempt returns,
    and in the world the call leaves there is a file at that path. *)
Theorem batch_output_directory (input_dir : string) (output_dir : option string)
  (file_extensions : option (list string)) (w : World) :
  fs_exists (w_fs w) (Path input_dir) = true ->
  let output_path := batch_output_path (Path input_dir) output_dir in
  let run := convert_multiple_files self input_dir output_dir file_extensions w in
  (output_dir = None ->
     parent output_path = Path input_dir /\ name output_path = "markdown_output") /\
  (forall e,
     mkdir_exist_ok (w_fs w) output_path = Raise e -> run = (Raise e, w)) /\
  (fs_is_dir (w_fs w) output_path = true ->
     mkdir_exist_ok (w_fs w) output_path = Ok (w_fs w)) /\
  (forall fs1,
     mkdir_exist_ok (w_fs w) output_path = Ok fs1 ->
     literal_extensions (extensions_or_default file_extensions) ->
     let atts :=
       all_attempts (batch_trace self input_dir output_dir file_extensions w) in
     fs_is_dir fs1 output_path = true /\
     run = (Ok (map att_output (filter (fun a => is_ok (att_result a)) atts)),
            world_after atts (set_fs w fs1)) /\
     fs_is_dir (w_fs (snd run)) output_path = true /\
     forall a,
       In a atts ->
       fs_is_dir (w_fs (att_before a)) output_path = true /\
       att_output a
       = str (truediv output_path (stem (att_file a) ++ ".md")%string) /\
       att_result a
       = fst (convert_file self (str (att_file a)) (Some (att_output a))
                (att_before a)) /\
       (forall r, att_result a = Ok r ->
                  r = att_output a /\ In r (fst_list run) /\
                  stays_file (Path r) (w_fs (snd run)))).
Proof.
  intros He output_path run. split; [|split; [|split]].
  - intros ->. apply default_output_path.
  - intros e Hm. unfold run, convert_multiple_files. rewrite He. simpl.
    fold output_path. rewrite Hm. reflexivity.
  - intros Hd. unfold mkdir_exist_ok. rewrite Hd. reflexivity.
  - intros fs1 Hm _ atts.
    pose proof (mkdir_exist_ok_is_dir _ _ Hm) as Hd. split; [exact Hd|].
    destruct (convert_multiple_files_runs input_dir output_dir file_extensions w He Hm)
      as [Htr Hrun].
    fold atts run in Hrun.
    pose proof (batch_attempts_chained self (Path input_dir) output_path
                  (extensions_or_default file_extensions) (set_fs w fs1)) as Hch.
    fold output_path in Htr. rewrite <- Htr in Hch. fold atts in Hch.
    pose proof (successes_outputs output_path atts (set_fs w fs1) Hch) as Hs.
    destruct (batch_attempts_invariant self (stays_dir output_path)
                (@open_write_stays_dir output_path) (Path input_dir) output_path
                (extensions_or_default file_extensions) (set_fs w fs1) Hd)
      as [Hinv Hend].
    rewrite <- Htr in Hinv, Hend. fold atts in Hinv, Hend.
    split; [rewrite Hrun, Hs; reflexivity|].
    split; [rewrite Hrun; exact Hend|].
    intros a Hin.
    rewrite Forall_forall in Hinv. destruct (Hinv a Hin) as [Hb _].
    pose proof (chained_In _ _ _ a Hch Hin) as Ha.
    apply attempt_call in Ha as (Ho & Hr & Hok & _).
    split; [exact Hb|]. split; [exact Ho|]. split; [exact Hr|].
    intros r Hres. destruct (Hok r Hres) as [Er _]. split; [exact Er|].
    rewrite Hrun. unfold fst_list. simpl. split.
    + unfold successes. apply in_flat_map. exists a. split; [exact Hin|].
      rewrite Hres. now left.
    + now apply (attempt_output_stays output_path atts (set_fs w fs1) a).
Qed.

(** C9.  In a batch over extensions without pattern characters, take two
    attempts, the first earlier than the second, on files with the same stem
    (two distinct files of the input directory whose names differ only in a
    matching extension are such), both successful.  Both return the same
    output path [<output_dir>/<stem>.md].  After the first the file at that
    path holds the Markdown of the first file; it is still a file there
    when the second attempt starts, and after the second it holds the
    Markdown of the second file.  [convert_multiple_files] returns the path
    once for each of the two conversions and leaves a file at that path,
    which holds the Markdown of the second file unless a later attempt has
    the same output path. *)
Theorem same_stem_overwrite (input_dir : string) (output_dir : option string)
  (file_extensions : option (list string)) (w : World) (fs1 : FS) :
  literal_extensions (extensions_or_default file_extensions) ->
  fs_exists (w_fs w) (Path input_dir) = true ->
  mkdir_exist_ok (w_fs w) (batch_output_path (Path input_dir) output_dir) = Ok fs1 ->
  let output_path := batch_output_path (Path input_dir) output_dir in
  let atts := all_attempts (batch_trace self input_dir output_dir file_extensions w) in
  let run := convert_multiple_files self input_dir output_dir file_extensions w in
  forall pre a1 mid a2 post r1 r2,
    atts = pre ++ a1 :: mid ++ a2 :: post ->
    stem (att_file a1) = stem (att_file a2) ->
    att_result a1 = Ok r1 ->
    att_result a2 = Ok r2 ->
    r1 = str (truediv output_path (stem (att_file a1) ++ ".md")%string) /\
    r2 = r1 /\
    (exists doc1 md1,
       convert (converter self) (w_fs (att_before a1)) (str (att_file a1)) = Ok doc1 /\
       export_to_markdown doc1 = Ok md1 /\
       fs_lookup (w_fs (att_after a1)) (Path r1) = Some (File md1)) /\
    (exists c, fs_lookup (w_fs (att_before a2)) (Path r1) = Some (File c)) /\
    (exists doc2 md2,
       convert (converter self) (w_fs (att_before a2)) (str (att_file a2)) = Ok doc2 /\
       export_to_markdown doc2 = Ok md2 /\
       fs_lookup (w_fs (att_after a2)) (Path r1) = Some (File md2) /\
       ((forall b, In b post -> Path (att_output b) <> Path r1) ->
        fs_lookup (w_fs (snd run)) (Path r1) = Some (File md2))) /\
    stays_file (Path r1) (w_fs (snd run)) /\
    exists results,
      run = (Ok results, world_after atts (set_fs w fs1)) /\
      2 <= count_occ string_dec results r1.
Proof.
  intros _ He Hm output_path atts run pre a1 mid a2 post r1 r2 Hsplit Hstem Hr1 Hr2.
  destruct (convert_multiple_files_runs input_dir output_dir file_extensions w He Hm)
    as [Htr Hrun].
  fold atts run in Hrun. fold output_path in Htr.
  pose proof (batch_attempts_chained self (Path input_dir) output_path
                (extensions_or_default file_extensions) (set_fs w fs1)) as Hall.
  rewrite <- Htr in Hall. fold atts in Hall.
  assert (Hend : snd run = world_after post (att_after a2)).
  { rewrite Hrun. simpl. rewrite Hsplit.
    rewrite world_after_app, world_after_cons, world_after_app, world_after_cons.
    reflexivity. }
  pose proof Hall as Hch. rewrite Hsplit in Hch.
  apply chained_app_inv in Hch as [_ Hch].
  pose proof (chained_head Hch) as Hb1.
  destruct Hch as [Ha1 Hch]. rewrite <- Hb1 in Ha1.
  apply chained_app_inv in Hch as [Hmid Hch].
  pose proof (chained_head Hch) as Hb2.
  destruct Hch as [Ha2 Hpost]. rewrite <- Hb2 in Ha2.
  destruct (@attempt_written output_path a1 r1 Ha1 Hr1) as (E1 & doc1 & md1 & Hc1 & Hx1 & Hl1).
  destruct (@attempt_written output_path a2 r2 Ha2 Hr2) as (E2 & doc2 & md2 & Hc2 & Hx2 & Hl2).
  assert (E : r2 = r1).
  { rewrite E1, E2. unfold batch_output_file. now rewrite Hstem. }
  split; [exact E1|]. split; [exact E|]. split; [eauto|]. split; [|split; [|split]].
  - rewrite Hb2.
    apply (chained_invariant (stays_file (Path r1)) output_path mid
             (@open_write_stays_file (Path r1)) (att_after a1) Hmid).
    exists md1. exact Hl1.
  - exists doc2, md2. rewrite <- E. split; [exact Hc2|]. split; [exact Hx2|].
    split; [exact Hl2|]. intros Hother. rewrite Hend.
    rewrite (@chained_untouched output_path (Path r2) post (att_after a2) Hpost)
      by exact Hother.
    exact Hl2.
  - rewrite Hrun. simpl.
    apply (attempt_output_stays output_path atts (set_fs w fs1) a1 Hall);
      [|exact Hr1].
    rewrite Hsplit. apply in_or_app. right. now left.
  - exists (successes atts). split; [exact Hrun|].
    rewrite Hsplit, successes_app, count_occ_app.
    rewrite (@successes_cons_ok a1 _ r1 Hr1), count_occ_cons_eq by reflexivity.
    rewrite successes_app, count_occ_app.
    rewrite (@successes_cons_ok a2 _ r2 Hr2), count_occ_cons_eq by exact E.
    lia.
Qed.

(** C10.  The supported formats are the default extensions followed by
    [.html] and [.txt], which are not among the defaults.  A batch run with
    the default extensions attempts only files whose names end with one of
    the defaults, so never a file whose name ends with [.html] or [.txt]. *)
Theorem supported_formats_superset :
  get_supported_formats self = default_file_extensions ++ [".html"; ".txt"] /\
  incl default_file_extensions (get_supported_formats self) /\
  In ".html" (get_supported_formats self) /\
  In ".txt" (get_supported_formats self) /\
  ~ In ".html" default_file_extensions /\
  ~ In ".txt" default_file_extensions /\
  (forall input_dir output_dir w a,
     In a (all_attempts (batch_trace self input_dir output_dir None w)) ->
     (exists ext, In ext default_file_extensions /\
                  endswith (name (att_file a)) ext = true) /\
     endswith (name (att_file a)) ".html" = false /\
     endswith (name (att_file a)) ".txt" = false).
Proof.
  split; [reflexivity|]. split.
  { intros x Hx. simpl in *. tauto. }
  split; [simpl; tauto|]. split; [simpl; tauto|].
  split; [simpl; intuition discriminate|]. split; [simpl; intuition discriminate|].
  intros input_dir output_dir w a Hin. unfold batch_trace in Hin.
  destruct (fs_exists (w_fs w) (Path input_dir)); [|contradiction].
  destruct (mkdir_exist_ok (w_fs w) (batch_output_path (Path input_dir) output_dir))
    as [fs1|e]; [|contradiction].
  apply batch_attempts_matched in Hin as (ext & w_i & Hext & Hg).
  apply glob_In in Hg as (_ & _ & Hends).
  split; [exists ext; auto|].
  now apply default_extension_excludes with (ext := ext).
Qed.

End BatchClaims.

(** ** The command line *)

Lemma same_streams_refl (w : World) : same_streams w w.
Proof. repeat split. Qed.

Lemma same_streams_trans (w1 w2 w3 : World) :
  same_streams w1 w2 -> same_streams w2 w3 -> same_streams w1 w3.
Proof. unfold same_streams. intuition congruence. Qed.

Lemma print_all_effects (ls : list stdout_line) :
  forall w : World,
    w_level (print_all ls w) = w_level w /\
    w_stdout (print_all ls w) = w_stdout w ++ ls.
Proof.
  unfold print_all. induction ls as [|l ls IH]; intros w; simpl.
  - now rewrite app_nil_r.
  - destruct (IH (print l w)) as [H1 H2]. rewrite H1, H2. simpl.
    now rewrite <- app_assoc.
Qed.

Section CommandLine.

Context {engine : DocumentEngine}.

Lemma convert_file_streams (self : DoclingConverter) (input_path : string)
  (output_path : option string) (w : World) :
  same_streams w (snd (convert_file self input_path output_path w)).
Proof.
  destruct (convert_file_frame self input_path output_path w) as (H1 & H2 & H3 & _).
  repeat split; assumption.
Qed.

Lemma file_loop_streams (self : DoclingConverter) (output_path : PosixPath)
  (files : list PosixPath) :
  forall (w : World) (converted_files : list string),
    same_streams w (snd (file_loop self output_path files w converted_files)).
Proof.
  induction files as [|f files IH]; intros w conv; simpl.
  - apply same_streams_refl.
  - pose proof (convert_file_streams self (str f)
                  (Some (str (batch_output_file output_path f))) w) as H.
    destruct (convert_file self (str f)
                (Some (str (batch_output_file output_path f))) w) as [[r|e] w'];
      simpl in H.
    + eapply same_streams_trans; [exact H | apply IH].
    + eapply same_streams_trans; [|apply IH].
      destruct H as (H1 & H2 & H3). repeat split; assumption.
Qed.

Lemma ext_loop_streams (self : DoclingConverter) (input_path output_path : PosixPath)
  (file_extensions : list string) :
  forall (w : World) (converted_files : list string),
    same_streams w
      (snd (ext_loop self input_path output_path file_extensions w converted_files)).
Proof.
  induction file_extensions as [|ext exts IH]; intros w conv;
    cbn [ext_loop].
  - apply same_streams_refl.
  - pose proof (file_loop_streams self output_path
                  (glob (w_fs w) input_path ("*" ++ ext)) w conv) as H.
    destruct (file_loop self output_path
                (glob (w_fs w) input_path ("*" ++ ext)) w conv) as [conv' w'].
    eapply same_streams_trans; [exact H | apply IH].
Qed.

Lemma convert_multiple_files_streams (self : DoclingConverter) (input_dir : string)
  (output_dir : option string) (file_extensions : option (list string)) (w : World) :
  same_streams w
    (snd (convert_multiple_files self input_dir output_dir file_extensions w)).
Proof.
  unfold convert_multiple_files.
  destruct (fs_exists (w_fs w) (Path input_dir)); simpl;
    [|apply same_streams_refl].
  destruct (mkdir_exist_ok (w_fs w) (batch_output_path (Path input_dir) output_dir))
    as [fs1|e]; [|apply same_streams_refl].
  pose proof (ext_loop_streams self (Path input_dir)
                (batch_output_path (Path input_dir) output_dir)
                (extensions_or_default file_extensions) (set_fs w fs1) []) as H.
  destruct (ext_loop self (Path input_dir)
              (batch_output_path (Path input_dir) output_dir)
              (extensions_or_default file_extensions) (set_fs w fs1) [])
    as [conv w'].
  exact H.
Qed.

(** A mode that raises has printed nothing; one that returns has only
    added lines. *)
Lemma run_mode_effects (converter : DoclingConverter) (args : Namespace) (w : World) :
  w_level (snd (run_mode converter args w)) = w_level w /\
  match fst (run_mode converter args w) with
  | Ok _ => exists printed,
      w_stdout (snd (run_mode converter args w)) = w_stdout w ++ printed
  | Raise _ => w_stdout (snd (run_mode converter args w)) = w_stdout w
  end.
Proof.
  unfold run_mode. destruct (truthy (input args)).
  - pose proof (convert_file_streams converter (arg_value (input args))
                  (output args) w) as (H1 & H2 & _).
    destruct (convert_file converter (arg_value (input args)) (output args) w)
      as [[r|e] w']; simpl in *; split; auto.
    exists [PrintCompleted r]. now rewrite H2.
  - destruct (truthy (directory args)).
    + pose proof (convert_multiple_files_streams converter
                    (arg_value (directory args)) (output_dir args)
                    (Some (extensions args)) w) as (H1 & H2 & _).
      destruct (convert_multiple_files converter (arg_value (directory args))
                  (output_dir args) (Some (extensions args)) w)
        as [[results|e] w']; simpl in *; split; auto.
      * now rewrite (proj1 (print_all_effects _ _)).
      * exists (PrintBatchCompleted (length results) :: map PrintItem results).
        rewrite (proj2 (print_all_effects _ _)). simpl.
        now rewrite H2, <- app_assoc.
    + simpl. split; auto. exists []. now rewrite app_nil_r.
Qed.

(** C8.  [get_supported_formats] returns the same list whatever the
    converter, the list is not empty, and [.pdf], [.docx] and [.pptx] are in
    it. *)
Theorem supported_formats_fixed (self1 self2 : DoclingConverter) :
  get_supported_formats self1 = get_supported_formats self2 /\
  get_supported_formats self1 <> [] /\
  In ".pdf" (get_supported_formats self1) /\
  In ".docx" (get_supported_formats self1) /\
  In ".pptx" (get_supported_formats self1).
Proof.
  split; [reflexivity|]. split; [discriminate|]. simpl. tauto.
Qed.


(** C7, as the code has it.  With the verbose flag set the logging level is
    DEBUG when [main] ends, however it ends.  The list of supported
    extensions is printed, last, when [main] returns: the arguments were
    valid, the converter was constructed and the conversion did not raise.
    When the process exits with an error instead, nothing has been printed. *)
Theorem verbose_output (args : Namespace) (w : World) :
  verbose args = true ->
  let w' := snd (main args w) in
  w_level w' = DEBUG /\
  (fst (main args w) = Returned ->
   exists printed,
     w_stdout w'
     = w_stdout w ++ printed
       ++ [PrintFormats
             (get_supported_formats
                (mkConverter (ocr args) (mkOptions (ocr args) true)))]) /\
  (fst (main args w) <> Returned -> w_stdout w' = w_stdout w).
Proof.
  intros Hv. unfold main. rewrite Hv.
  destruct (negb (truthy (input args)) && negb (truthy (directory args))).
  { simpl. split; [reflexivity|]. split; [discriminate | reflexivity]. }
  destruct (truthy (input args) && truthy (directory args)).
  { simpl. split; [reflexivity|]. split; [discriminate | reflexivity]. }
  unfold _setup_converter.
  destruct (DocumentConverter {| do_ocr := ocr args; do_table_structure := true |})
    as [e|].
  { simpl. split; [reflexivity|]. split; [discriminate | reflexivity]. }
  set (c := {| use_ocr := ocr args;
               converter := {| do_ocr := ocr args; do_table_structure := true |} |}).
  set (w1 := logger InfoInitialised (setLevel DEBUG w)).
  destruct (run_mode_effects c args w1) as [Hl Hs].
  destruct (run_mode c args w1) as [[u|e] w2]; simpl in *.
  - destruct Hs as [printed Hs]. split; [exact Hl|]. split; [|congruence].
    intros _. exists printed. rewrite Hs, <- app_assoc. reflexivity.
  - split; [exact Hl|]. split; [discriminate|]. intros _. exact Hs.
Qed.

End CommandLine.

(** ** The claims on the sample file system *)

Lemma convert_file_output_path_witness :
  fs_exists (w_fs sample_world) (Path "report.pdf") = true /\
  exists w',
    @convert_file stub_engine sample_converter "report.pdf" None sample_world
    = (Ok "report.md", w').
Proof.
  split; [reflexivity|].
  apply (proj2 (proj2 (proj2
           (@convert_file_output_path stub_engine sample_converter "report.pdf"
              None sample_world eq_refl)))
           "report" "# report"
           (sample_fs ++ [(Path "report.md", File "# report")]));
    try reflexivity.
  intros _. discriminate.
Defined.


Lemma default_extensions_literal : literal_extensions default_file_extensions.
Proof. repeat constructor. Qed.

Lemma batch_failure_policy_witness :
  literal_extensions (extensions_or_default None) /\
  fs_exists (w_fs sample_world) (Path "docs") = true /\
  mkdir_exist_ok (w_fs sample_world) (batch_output_path (Path "docs") None)
  = Ok sample_fs1 /\
  exists results w' delta,
    @convert_multiple_files stub_engine sample_converter "docs" None None sample_world
    = (Ok results, w') /\
    w_log w' = w_log sample_world ++ delta /\
    length results = 2 /\
    length (filter is_batch_failure delta) = 1.
Proof.
  split; [exact default_extensions_literal|].
  split; [reflexivity|]. split; [reflexivity|].
  destruct (@batch_failure_policy stub_engine sample_converter "docs" None None
              sample_world sample_fs1 default_extensions_literal eq_refl eq_refl)
    as (results & w' & delta & Hrun & _ & Hlog & _ & _ & _ & Hone).
  exists results, w', delta. split; [exact Hrun|]. split; [exact Hlog|].
  exact (Hone eq_refl).
Defined.

(** C2 as stated fails: in the default batch over [docs] three distinct
    files are attempted and exactly one fails, and the log holds two error
    records for it, the one of [convert_file] and the one of the batch. *)
Lemma one_failure_two_records_counterexample :
  NoDup (map att_file sample_attempts) /\
  length sample_attempts = 3 /\
  length (failures sample_attempts) = 1 /\
  filter is_error
    (w_log (snd (@convert_multiple_files stub_engine sample_converter "docs" None
                   None sample_world)))
  = [ErrorConverting (EngineError "corrupt document");
     ErrorBatchFile "docs/b.docx" (EngineError "corrupt document")] /\
  ~ @one_failure_logged_once stub_engine sample_converter "docs" None None
      sample_world.
Proof.
  assert (Hd : NoDup (map att_file sample_attempts)).
  { vm_compute.
    repeat (constructor; [simpl; intuition discriminate|]). constructor. }
  split; [exact Hd|]. split; [reflexivity|]. split; [reflexivity|].
  split; [reflexivity|].
  intros H. destruct (H Hd eq_refl) as (results & w' & delta & Hrun & Hlog & _ & Herr).
  vm_compute in Hrun. injection Hrun as _ <-.
  simpl in Hlog. rewrite <- Hlog in Herr. vm_compute in Herr. discriminate Herr.
Qed.


Lemma batch_output_directory_witness :
  fs_exists (w_fs sample_world) (Path "docs") = true /\
  name (batch_output_path (Path "docs") None) = "markdown_output" /\
  fs_is_dir
    (w_fs (snd (@convert_multiple_files stub_engine sample_converter "docs" None
                  None sample_world)))
    (Path "docs/markdown_output") = true /\
  Forall (fun a => fs_is_dir (w_fs (att_before a)) (Path "docs/markdown_output") = true)
    sample_attempts.
Proof.
  split; [reflexivity|].
  destruct (@batch_output_directory stub_engine sample_converter "docs" None None
              sample_world eq_refl)
    as (Hdefault & _ & _ & Hrun).
  split; [exact (proj2 (Hdefault eq_refl))|].
  destruct (Hrun sample_fs1 eq_refl default_extensions_literal)
    as (_ & _ & Hdir & Hatts).
  split; [exact Hdir|].
  apply Forall_forall. intros a Hin. exact (proj1 (Hatts a Hin)).
Defined.

Lemma batch_order_witness :
  literal_extensions [".pdf"; "pdf"; ".txt"] /\
  fs_exists (w_fs sample_world) (Path "docs") = true /\
  mkdir_exist_ok (w_fs sample_world) (batch_output_path (Path "docs") None)
  = Ok sample_fs1 /\
  fst (@convert_multiple_files stub_engine sample_converter "docs" None
         (Some [".pdf"; "pdf"; ".txt"]) sample_world)
  = Ok ["docs/markdown_output/a.md"; "docs/markdown_output/a.md";
        "docs/markdown_output/c.md"].
Proof.
  assert (Hlit : literal_extensions [".pdf"; "pdf"; ".txt"]) by repeat constructor.
  split; [exact Hlit|]. split; [reflexivity|]. split; [reflexivity|].
  rewrite (proj1 (@batch_order stub_engine sample_converter "docs" None
                    (Some [".pdf"; "pdf"; ".txt"]) sample_world sample_fs1
                    Hlit eq_refl eq_refl)).
  reflexivity.
Defined.

Lemma same_stem_overwrite_witness :
  fs_exists (w_fs sample_world) (Path "docs") = true /\
  mkdir_exist_ok (w_fs sample_world) (batch_output_path (Path "docs") None)
  = Ok sample_fs1 /\
  att_file (nth 0 sample_attempts no_attempt) = Path "docs/a.pdf" /\
  att_file (nth 2 sample_attempts no_attempt) = Path "docs/a.docx" /\
  fs_lookup (w_fs (att_after (nth 0 sample_attempts no_attempt)))
    (Path "docs/markdown_output/a.md") = Some (File "# alpha") /\
  fs_lookup
    (w_fs (snd (@convert_multiple_files stub_engine sample_converter "docs" None
                  None sample_world)))
    (Path "docs/markdown_output/a.md") = Some (File "# delta") /\
  exists results,
    @convert_multiple_files stub_engine sample_converter "docs" None None
      sample_world = (Ok results, world_after sample_attempts (set_fs sample_world sample_fs1)) /\
    2 <= count_occ string_dec results "docs/markdown_output/a.md".
Proof.
  split; [reflexivity|]. split; [reflexivity|].
  split; [reflexivity|]. split; [reflexivity|].
  split; [reflexivity|]. split; [reflexivity|].
  exact (proj2 (proj2 (proj2 (proj2 (proj2 (proj2
           (@same_stem_overwrite stub_engine sample_converter "docs" None None
              sample_world sample_fs1 default_extensions_literal eq_refl eq_refl
              [] (nth 0 sample_attempts no_attempt)
              [nth 1 sample_attempts no_attempt]
              (nth 2 sample_attempts no_attempt) []
              "docs/markdown_output/a.md" "docs/markdown_output/a.md"
              eq_refl eq_refl eq_refl eq_refl))))))).
Defined.



(** C7 as stated fails: with [--verbose] and an input file that does not
    exist, [main] logs the error and exits with code 1 without printing the
    formats. *)
Lemma verbose_formats_counterexample :
  verbose args_verbose_missing = true /\
  fst (@main stub_engine args_verbose_missing sample_world) = SystemExit 1 /\
  w_stdout (snd (@main stub_engine args_verbose_missing sample_world)) = [] /\
  ~ @verbose_run_prints_formats stub_engine args_verbose_missing sample_world.
Proof.
  split; [reflexivity|]. split; [reflexivity|]. split; [reflexivity|].
  unfold verbose_run_prints_formats. intros [_ [formats Hin]].
  vm_compute in Hin. exact Hin.
Qed.

Lemma verbose_output_witness :
  verbose args_verbose_report = true /\
  w_level (snd (@main stub_engine args_verbose_report sample_world)) = DEBUG /\
  w_stdout (snd (@main stub_engine args_verbose_report sample_world))
  = [PrintCompleted "report.md";
     PrintFormats [".pdf"; ".docx"; ".pptx"; ".doc"; ".ppt"; ".html"; ".txt"]].
Proof.
  split; [reflexivity|].
  destruct (@verbose_output stub_engine args_verbose_report sample_world eq_refl)
    as (Hlevel & _ & _).
  split; [exact Hlevel | reflexivity].
Defined.

(** * Further properties of the code *)

(** ** [convert_file]: failures and edge cases *)

Lemma open_write_needs_parent (fs : FS) (s c : string) :
  fs_exists fs (parent (Path s)) = false -> is_ok (open_write fs s c) = false.
Proof.
  intros H. unfold open_write. destruct (s =? ""); [reflexivity|].
  destruct (fs_is_dir fs (Path s)); [reflexivity|].
  rewrite H. reflexivity.
Qed.

Lemma replace_extension_same (p : PosixPath) (ext : string) :
  suffix p = ext -> ext <> "" -> replace_extension p ext = p.
Proof.
  intros Hs Hne. destruct p as [r ps]. unfold replace_extension, stem, suffix in *.
  simpl root. simpl parts. f_equal.
  assert (Hn : (stem_of (name (mkPath r ps)) ++ ext)%string = name (mkPath r ps))
    by (rewrite <- Hs; apply stem_suffix).
  rewrite Hn. unfold name. simpl parts.
  destruct ps as [|x ps].
  - exfalso. apply Hne. rewrite <- Hs. reflexivity.
  - symmetry. apply app_removelast_last. discriminate.
Qed.

Section MoreSingleFile.

Context {engine : DocumentEngine}.

Variable self : DoclingConverter.

(** X1.  When the engine raises, in [convert] or in [export_to_markdown],
    [convert_file] has announced the conversion, logs the error and raises
    the same exception again; the output has not been opened, so the file
    system is as it was, and nothing is printed. *)
Theorem convert_file_failure_keeps_files (input_path : string)
  (output_path : option string) (w : World) (r : string) (e : exn) :
  fs_exists (w_fs w) (Path input_path) = true ->
  resolve_output (Path input_path) output_path = Ok r ->
  (convert (converter self) (w_fs w) input_path = Raise e \/
   exists doc,
     convert (converter self) (w_fs w) input_path = Ok doc /\
     export_to_markdown doc = Raise e) ->
  convert_file self input_path output_path w
  = (Raise e,
     mkWorld (w_fs w) (w_level w)
       (w_log w ++ [InfoConverting input_path r; ErrorConverting e])
       (w_stdout w) (w_stderr w)).
Proof.
  intros Hx Hr He. unfold convert_file. rewrite Hx, Hr. simpl.
  unfold convert_and_write, bind. simpl.
  destruct He as [He|(doc & Hc & He)].
  - rewrite He. unfold logger. simpl. now rewrite <- app_assoc.
  - rewrite Hc, He. unfold logger. simpl. now rewrite <- app_assoc.
Qed.

(** X2.  Without an explicit output path, an input whose extension already
    is [.md] is its own output path: a successful conversion replaces the
    content of the input file with the Markdown of its conversion. *)
Theorem markdown_input_overwritten (input_path : string) (w w' : World)
  (r : string) :
  suffix (Path input_path) = ".md" ->
  convert_file self input_path None w = (Ok r, w') ->
  Path r = Path input_path /\
  exists doc md,
    convert (converter self) (w_fs w) input_path = Ok doc /\
    export_to_markdown doc = Ok md /\
    fs_lookup (w_fs w') (Path input_path) = Some (File md).
Proof.
  intros Hs H.
  apply convert_file_ok in H as (_ & Hr & doc & md & Hc & Hx & Hw & _).
  apply resolve_output_resolved in Hr. simpl in Hr.
  rewrite replace_extension_same in Hr by (auto; discriminate).
  assert (Hp : Path r = Path input_path)
    by (rewrite Hr; apply Path_str, Path_wf).
  split; [exact Hp|]. exists doc, md. split; [exact Hc|]. split; [exact Hx|].
  apply open_write_ok in Hw as [Hfs _]. rewrite Hfs, Hp.
  apply fs_lookup_write_same.
Qed.

(** X3.  [convert_file] makes no directory: with an explicit output path
    whose parent does not exist it raises, whatever the engine does, and
    the file system is as it was. *)
Theorem output_directory_not_made (input_path out : string) (w : World) :
  fs_exists (w_fs w) (parent (Path out)) = false ->
  is_ok (fst (convert_file self input_path (Some out) w)) = false /\
  w_fs (snd (convert_file self input_path (Some out) w)) = w_fs w.
Proof.
  intros Hp. unfold convert_file.
  destruct (fs_exists (w_fs w) (Path input_path)); simpl; [|auto].
  unfold convert_and_write, bind.
  destruct (convert (converter self) (w_fs w) input_path) as [doc|e]; [|auto].
  destruct (export_to_markdown doc) as [md|e]; [|auto].
  pose proof (open_write_needs_parent (w_fs w) out md Hp) as Hw.
  simpl. destruct (open_write (w_fs w) out md); [discriminate Hw | auto].
Qed.

(** X4.  Neither [convert_file] nor [convert_multiple_files] prints on
    standard output or changes the logging level, and neither takes a record
    out of the log: after the call standard output and the level are as
    before and the log is the old log followed by new records. *)
Theorem conversions_keep_streams (input_path : string) (output_path : option string)
  (input_dir : string) (output_dir : option string)
  (file_extensions : option (list string)) (w : World) :
  let w1 := snd (convert_file self input_path output_path w) in
  let w2 := snd (convert_multiple_files self input_dir output_dir file_extensions w) in
  w_stdout w1 = w_stdout w /\ w_level w1 = w_level w /\
  (exists delta, w_log w1 = w_log w ++ delta) /\
  w_stdout w2 = w_stdout w /\ w_level w2 = w_level w /\
  (exists delta, w_log w2 = w_log w ++ delta).
Proof.
  intros w1 w2.
  destruct (convert_file_streams self input_path output_path w) as (Hl1 & Ho1 & _).
  destruct (convert_multiple_files_streams self input_dir output_dir
              file_extensions w) as (Hl2 & Ho2 & _).
  split; [exact Ho1|]. split; [exact Hl1|]. split; [|split; [exact Ho2|split; [exact Hl2|]]].
  - destruct (convert_file_frame self input_path output_path w)
      as (_ & _ & _ & delta & Hd & _).
    exists delta. exact Hd.
  - unfold w2, convert_multiple_files.
    destruct (fs_exists (w_fs w) (Path input_dir)); simpl.
    2:{ exists []. now rewrite app_nil_r. }
    destruct (mkdir_exist_ok (w_fs w) (batch_output_path (Path input_dir) output_dir))
      as [fs1|e].
    2:{ exists []. now rewrite app_nil_r. }
    rewrite ext_loop_attempts. simpl.
    destruct (batch_attempts_log self (batch_output_path (Path input_dir) output_dir)
                (Path input_dir) (extensions_or_default file_extensions)
                (set_fs w fs1)) as (delta & Hd & _).
    exists delta. exact Hd.
Qed.

End MoreSingleFile.

(** ** [convert_multiple_files]: what it looks at and where it writes *)

Lemma truediv_wf (p : PosixPath) (s : string) :
  wf_path p -> wf_path (truediv p s).
Proof.
  intros [Hr Hps]. unfold truediv. destruct (Path_wf s) as [Hr' Hps'].
  destruct (root (Path s) =? ""); [|split; assumption].
  split; [exact Hr|]. simpl. apply Forall_app. auto.
Qed.

Lemma batch_output_path_wf (input_dir : string) (output_dir : option string) :
  wf_path (batch_output_path (Path input_dir) output_dir).
Proof.
  destruct output_dir as [d|]; simpl; [apply Path_wf|].
  apply truediv_wf, Path_wf.
Qed.

Lemma stem_md_wf_part (p : PosixPath) :
  wf_path p -> wf_part (stem p ++ ".md") = true.
Proof.
  intros Hwf. pose proof (wf_name_free Hwf) as Hn.
  unfold wf_part. apply andb_true_intro. split.
  - unfold proper_part.
    assert (L : 3 <= String.length (stem p ++ ".md"))
      by (rewrite length_append; simpl; lia).
    destruct (String.eqb_spec (stem p ++ ".md") "") as [E|_];
      [rewrite E in L; simpl in L; lia|].
    destruct (String.eqb_spec (stem p ++ ".md") ".") as [E|_];
      [rewrite E in L; simpl in L; lia|].
    reflexivity.
  - unfold slash_free in *. rewrite contains_char_app. simpl. rewrite orb_false_r.
    rewrite <- (stem_suffix (name p)), contains_char_app in Hn.
    unfold stem. destruct (contains_char "/" (stem_of (name p))); [discriminate Hn|].
    reflexivity.
Qed.

Lemma Path_part (x : string) : wf_part x = true -> Path x = mkPath "" [x].
Proof.
  intros Hx. apply (@Path_concat [x]); [|discriminate].
  constructor; [exact Hx | constructor].
Qed.

(** The output file of a batch item lies directly in the output directory. *)
Lemma batch_output_file_inside (output_path file_path : PosixPath) :
  wf_path output_path -> wf_path file_path ->
  let o := batch_output_file output_path file_path in
  Path (str o) = o /\ parent o = output_path.
Proof.
  intros Ho Hf o. split.
  - apply Path_str. unfold o, batch_output_file. now apply truediv_wf.
  - unfold o, batch_output_file, truediv.
    rewrite (@Path_part _ (stem_md_wf_part Hf)). simpl.
    destruct output_path as [r ps]. unfold parent. simpl.
    now rewrite removelast_last.
Qed.

Lemma open_write_wf_keys (fs fs' : FS) (s c : string) :
  wf_keys fs -> open_write fs s c = Ok fs' -> wf_keys fs'.
Proof.
  unfold wf_keys. intros H Hw. apply open_write_ok in Hw as [-> _].
  apply Forall_forall. intros k Hk. apply fs_write_keys_in in Hk as [->|Hk].
  - apply Path_wf.
  - rewrite Forall_forall in H. auto.
Qed.

Lemma glob_keys (fs : FS) (d f : PosixPath) (pattern : string) :
  In f (glob fs d pattern) -> In f (keys fs).
Proof.
  unfold glob. destruct (fs_is_dir fs d); [|contradiction].
  intros H. apply filter_In in H as [H _]. unfold scandir in H.
  now apply filter_In in H as [H _].
Qed.

Section MoreBatch.

Context {engine : DocumentEngine}.

Variable self : DoclingConverter.

Lemma ext_loop_no_files (input_path output_path : PosixPath)
  (file_extensions : list string) (w : World) (converted_files : list string) :
  (forall ext, In ext file_extensions ->
               glob (w_fs w) input_path ("*" ++ ext) = []) ->
  ext_loop self input_path output_path file_extensions w converted_files
  = (converted_files, w).
Proof.
  induction file_extensions as [|ext exts IH]; intros H; [reflexivity|].
  cbn [ext_loop]. rewrite (H ext (or_introl eq_refl)). cbn [file_loop].
  apply IH. intros e He. apply H. now right.
Qed.

(** X5.  A batch over extensions without pattern characters that finds no
    file for any of them returns the empty list; it has made the output
    directory all the same, and has changed and logged nothing else. *)
Theorem batch_nothing_to_convert (input_dir : string) (output_dir : option string)
  (file_extensions : option (list string)) (w : World) (fs1 : FS) :
  literal_extensions (extensions_or_default file_extensions) ->
  fs_exists (w_fs w) (Path input_dir) = true ->
  mkdir_exist_ok (w_fs w) (batch_output_path (Path input_dir) output_dir) = Ok fs1 ->
  (forall ext, In ext (extensions_or_default file_extensions) ->
               glob fs1 (Path input_dir) ("*" ++ ext) = []) ->
  convert_multiple_files self input_dir output_dir file_extensions w
  = (Ok [], set_fs w fs1).
Proof.
  intros _ He Hm Hg. unfold convert_multiple_files. rewrite He, Hm. simpl.
  now rewrite ext_loop_no_files.
Qed.

(** X6.  The existence check of [convert_multiple_files] lets a regular
    file through: for extensions without pattern characters, an existing
    path that is not a directory, and an output directory that can be made,
    the batch raises nothing and returns the empty list. *)
Theorem batch_on_a_file (input_dir : string) (output_dir : option string)
  (file_extensions : option (list string)) (w : World) (fs1 : FS) :
  literal_extensions (extensions_or_default file_extensions) ->
  fs_exists (w_fs w) (Path input_dir) = true ->
  fs_is_dir (w_fs w) (Path input_dir) = false ->
  mkdir_exist_ok (w_fs w) (batch_output_path (Path input_dir) output_dir) = Ok fs1 ->
  convert_multiple_files self input_dir output_dir file_extensions w
  = (Ok [], set_fs w fs1).
Proof.
  intros _ He Hd Hm. unfold convert_multiple_files. rewrite He, Hm. simpl.
  rewrite ext_loop_no_files; [reflexivity|].
  intros ext _. unfold glob. simpl w_fs.
  assert (Hd1 : fs_is_dir fs1 (Path input_dir) = false).
  { apply mkdir_exist_ok_cases in Hm as [[_ ->]|(Hl & Ha & ->)]; [exact Hd|].
    unfold fs_is_dir, fs_exists in *. rewrite fs_lookup_app.
    destruct (is_anchor (Path input_dir)); [discriminate Hd|]. simpl in *.
    destruct (fs_lookup (w_fs w) (Path input_dir)) as [[c|]|];
      [reflexivity | discriminate Hd | discriminate He]. }
  now rewrite Hd1.
Qed.

(** X7.  A batch over extensions without pattern characters is not
    recursive and skips what does not match: every file it attempts is an
    entry directly inside the input directory whose name ends with one of
    the extensions, and every path [convert_multiple_files] returns is the
    output [<output_dir>/<stem>.md] of such an entry. *)
Theorem batch_attempts_children (input_dir : string) (output_dir : option string)
  (file_extensions : option (list string)) (w : World) :
  literal_extensions (extensions_or_default file_extensions) ->
  let atts :=
    all_attempts (batch_trace self input_dir output_dir file_extensions w) in
  let matching f :=
    parent f = Path input_dir /\ is_anchor f = false /\
    exists ext,
      In ext (extensions_or_default file_extensions) /\
      endswith (name f) ext = true in
  (forall a, In a atts -> matching (att_file a)) /\
  (forall results w' r,
     convert_multiple_files self input_dir output_dir file_extensions w
     = (Ok results, w') ->
     In r results ->
     exists f,
       matching f /\
       r = str (batch_output_file
                  (batch_output_path (Path input_dir) output_dir) f)).
Proof.
  intros _ atts matching.
  assert (Hall : forall a, In a atts -> matching (att_file a)).
  { intros a Hin. unfold atts, batch_trace in Hin.
    destruct (fs_exists (w_fs w) (Path input_dir)); [|contradiction].
    destruct (mkdir_exist_ok (w_fs w) (batch_output_path (Path input_dir) output_dir))
      as [fs1|e]; [|contradiction].
    apply batch_attempts_matched in Hin as (ext & w_i & Hext & Hg).
    apply glob_In in Hg as (_ & Hs & Hends).
    apply scandir_In in Hs as (_ & Ha & Hp).
    split; [exact Hp|]. split; [exact Ha|]. exists ext. auto. }
  split; [exact Hall|].
  intros results w' r Hrun Hr.
  destruct (fs_exists (w_fs w) (Path input_dir)) eqn:He.
  2:{ unfold convert_multiple_files in Hrun. rewrite He in Hrun. discriminate. }
  destruct (mkdir_exist_ok (w_fs w) (batch_output_path (Path input_dir) output_dir))
    as [fs1|e] eqn:Hm.
  2:{ unfold convert_multiple_files in Hrun. rewrite He, Hm in Hrun. discriminate. }
  destruct (@convert_multiple_files_runs engine self input_dir output_dir
              file_extensions w fs1 He Hm) as [Htr Hrun'].
  fold atts in Hrun'. rewrite Hrun' in Hrun. injection Hrun as <- _.
  unfold successes in Hr. apply in_flat_map in Hr as (a & Hin & Hra).
  destruct (att_result a) as [r0|e] eqn:Hres; [|contradiction].
  destruct Hra as [<-|[]].
  pose proof (batch_attempts_chained self (Path input_dir)
                (batch_output_path (Path input_dir) output_dir)
                (extensions_or_default file_extensions) (set_fs w fs1)) as Hch.
  rewrite <- Htr in Hch. fold atts in Hch.
  pose proof (@chained_In engine self _ _ _ a Hch Hin) as Ha.
  apply attempt_call in Ha as (Ho & _ & Hok & _).
  destruct (Hok r0 Hres) as [-> _].
  exists (att_file a). split; [now apply Hall | exact Ho].
Qed.

Lemma convert_file_batch_frame (output_path file_path : PosixPath) (w : World)
  (q : PosixPath) :
  wf_path output_path -> wf_path file_path ->
  parent q <> output_path ->
  fs_lookup
    (w_fs (snd (convert_file self (str file_path)
                  (Some (str (batch_output_file output_path file_path))) w))) q
  = fs_lookup (w_fs w) q.
Proof.
  intros Ho Hf Hq.
  destruct (batch_output_file_inside Ho Hf) as [Hrt Hpar].
  destruct (convert_file_cases self (str file_path)
              (Some (str (batch_output_file output_path file_path))) w)
    as [[e E]|[(r & e & E)|(r & md & fs' & Hr & Hw & E)]]; rewrite E; simpl;
    try reflexivity.
  simpl in Hr. injection Hr as <-.
  apply open_write_ok in Hw as [-> _]. rewrite Hrt.
  apply fs_lookup_write_other. intros ->. now apply Hq.
Qed.

Lemma file_attempts_frame (output_path : PosixPath) (q : PosixPath)
  (files : list PosixPath) :
  wf_path output_path -> parent q <> output_path ->
  Forall wf_path files ->
  forall w : World,
    fs_lookup (w_fs (world_after (file_attempts self output_path files w) w)) q
    = fs_lookup (w_fs w) q.
Proof.
  intros Ho Hq Hfiles. induction Hfiles as [|f files Hf _ IH]; intros w;
    [reflexivity|].
  cbn [file_attempts]. rewrite world_after_cons, IH.
  destruct (attempt_of_call self output_path f w) as (_ & Hout & _ & _ & Ha).
  rewrite Ha, Hout.
  destruct (att_result (attempt_of self output_path f w)); simpl;
    now apply convert_file_batch_frame.
Qed.

Lemma batch_attempts_frame (input_path output_path : PosixPath) (q : PosixPath)
  (file_extensions : list string) :
  wf_path output_path -> parent q <> output_path ->
  forall w : World,
    wf_keys (w_fs w) ->
    fs_lookup
      (w_fs (world_after
               (all_attempts
                  (batch_attempts self input_path output_path file_extensions w)) w))
      q
    = fs_lookup (w_fs w) q.
Proof.
  intros Ho Hq. induction file_extensions as [|ext exts IH]; intros w Hk;
    [reflexivity|].
  unfold all_attempts. cbn [batch_attempts flat_map snd].
  rewrite world_after_app.
  assert (Hfiles : Forall wf_path (glob (w_fs w) input_path ("*" ++ ext))).
  { apply Forall_forall. intros f Hf. apply glob_keys in Hf.
    unfold wf_keys in Hk. rewrite Forall_forall in Hk. auto. }
  destruct (file_attempts_invariant self wf_keys open_write_wf_keys output_path
              (glob (w_fs w) input_path ("*" ++ ext)) w Hk) as [_ Hk'].
  unfold all_attempts in IH. rewrite IH by exact Hk'.
  now apply file_attempts_frame.
Qed.

(** X8.  Take a file system without links whose entries are named by
    parsed paths, a batch over extensions without pattern characters, and an
    output directory and a path [q] that are both relative and free of
    [".."], so that they name different files when they differ.  The batch
    writes only directly inside its output directory: unless [q] is the
    output directory or lies directly in it, [q] holds after the batch what
    it held before. *)
Theorem batch_writes_inside_output_dir (input_dir : string)
  (output_dir : option string) (file_extensions : option (list string))
  (w w' : World) (results : list string) :
  wf_keys (w_fs w) ->
  literal_extensions (extensions_or_default file_extensions) ->
  convert_multiple_files self input_dir output_dir file_extensions w
  = (Ok results, w') ->
  let output_path := batch_output_path (Path input_dir) output_dir in
  canonical_path output_path ->
  forall q,
    canonical_path q ->
    q <> output_path -> parent q <> output_path ->
    fs_lookup (w_fs w') q = fs_lookup (w_fs w) q.
Proof.
  intros Hk _ Hrun output_path _ q _ Hq Hpar.
  unfold convert_multiple_files in Hrun.
  destruct (fs_exists (w_fs w) (Path input_dir)); simpl in Hrun; [|discriminate].
  fold output_path in Hrun.
  destruct (mkdir_exist_ok (w_fs w) output_path) as [fs1|e] eqn:Hm; [|discriminate].
  rewrite ext_loop_attempts in Hrun. injection Hrun as _ <-.
  assert (Ho : wf_path output_path) by apply batch_output_path_wf.
  assert (Hk1 : wf_keys fs1 /\ fs_lookup fs1 q = fs_lookup (w_fs w) q).
  { apply mkdir_exist_ok_cases in Hm as [[_ ->]|(Hl & Ha & ->)]; [auto|].
    split.
    - unfold wf_keys, keys in *. rewrite map_app. apply Forall_app.
      split; [exact Hk|]. constructor; [exact Ho | constructor].
    - rewrite fs_lookup_app. destruct (fs_lookup (w_fs w) q); [reflexivity|].
      simpl. destruct (PosixPath_eq_dec output_path q); [congruence | reflexivity]. }
  destruct Hk1 as [Hk1 Hl1]. rewrite <- Hl1.
  now apply (batch_attempts_frame (Path input_dir) (extensions_or_default file_extensions)
               Ho Hpar (set_fs w fs1)).
Qed.


End MoreBatch.

(** ** [main]: exit codes and what a run leaves behind *)

Section MoreCommandLine.

Context {engine : DocumentEngine}.





End MoreCommandLine.

(** ** The options the engine is used with *)

Lemma options_eqb_refl (o : PdfPipelineOptions) : options_eqb o o = true.
Proof. unfold options_eqb. now rewrite !Bool.eqb_reflx. Qed.

Section EngineOptions.

Variable E : DocumentEngine.
Variable opts : PdfPipelineOptions.

Lemma convert_file_only_options (self : DoclingConverter) (input_path : string)
  (output_path : option string) (w : World) :
  converter self = opts ->
  @convert_file (only_options E opts) self input_path output_path w
  = @convert_file E self input_path output_path w.
Proof.
  intros H. unfold convert_file, convert_and_write. simpl.
  now rewrite H, options_eqb_refl.
Qed.

Lemma file_loop_only_options (self : DoclingConverter) (output_path : PosixPath)
  (files : list PosixPath) :
  converter self = opts ->
  forall (w : World) (converted_files : list string),
    @file_loop (only_options E opts) self output_path files w converted_files
    = @file_loop E self output_path files w converted_files.
Proof.
  intros H. induction files as [|f files IH]; intros w conv; [reflexivity|].
  cbn [file_loop]. rewrite convert_file_only_options by exact H.
  destruct (@convert_file E self (str f)
              (Some (str (batch_output_file output_path f))) w) as [[r|e] w'];
    apply IH.
Qed.

Lemma ext_loop_only_options (self : DoclingConverter)
  (input_path output_path : PosixPath) (file_extensions : list string) :
  converter self = opts ->
  forall (w : World) (converted_files : list string),
    @ext_loop (only_options E opts) self input_path output_path file_extensions w
      converted_files
    = @ext_loop E self input_path output_path file_extensions w converted_files.
Proof.
  intros H. induction file_extensions as [|ext exts IH]; intros w conv;
    [reflexivity|].
  cbn [ext_loop]. rewrite file_loop_only_options by exact H.
  destruct (@file_loop E self output_path
              (glob (w_fs w) input_path ("*" ++ ext)) w conv) as [conv' w'].
  apply IH.
Qed.

Lemma convert_multiple_files_only_options (self : DoclingConverter)
  (input_dir : string) (output_dir : option string)
  (file_extensions : option (list string)) (w : World) :
  converter self = opts ->
  @convert_multiple_files (only_options E opts) self input_dir output_dir
    file_extensions w
  = @convert_multiple_files E self input_dir output_dir file_extensions w.
Proof.
  intros H. unfold convert_multiple_files.
  destruct (fs_exists (w_fs w) (Path input_dir)); simpl; [|reflexivity].
  destruct (mkdir_exist_ok (w_fs w) (batch_output_path (Path input_dir) output_dir));
    [|reflexivity].
  now rewrite ext_loop_only_options.
Qed.

End EngineOptions.

(** X14.  [main] uses the engine with one set of pipeline options only: OCR
    as the [--ocr] flag says and table structure on.  With an engine that
    raises for any other options, [main] does exactly the same. *)
Theorem main_uses_requested_options (E : DocumentEngine) (args : Namespace)
  (w : World) :
  @main (only_options E (mkOptions (ocr args) true)) args w = @main E args w.
Proof.
  unfold main.
  destruct (negb (truthy (input args)) && negb (truthy (directory args)));
    [reflexivity|].
  destruct (truthy (input args) && truthy (directory args)); [reflexivity|].
  unfold _setup_converter. simpl. rewrite options_eqb_refl.
  destruct (@DocumentConverter E {| do_ocr := ocr args; do_table_structure := true |});
    [reflexivity|].
  unfold run_mode.
  rewrite convert_file_only_options, convert_multiple_files_only_options
    by reflexivity.
  reflexivity.
Qed.

(** ** The try-out script *)


Section TestScriptProperties.

Context {engine : DocumentEngine}.


End TestScriptProperties.

(** ** Errors that reach the handler of [main] *)

Section MoreErrors.

Context {engine : DocumentEngine}.

(** X16.  When the engine cannot be constructed, [main] exits with code 1
    after two error records for the one exception, the one of
    [_setup_converter] and the one of its own handler; nothing is converted
    or printed. *)
Theorem main_engine_unavailable (args : Namespace) (w : World) (e : exn) :
  truthy (input args) <> truthy (directory args) ->
  DocumentConverter (mkOptions (ocr args) true) = Some e ->
  main args w
  = (SystemExit 1,
     mkWorld (w_fs w) (if verbose args then DEBUG else w_level w)
       (w_log w ++ [ErrorInitialising e; ErrorMain e])
       (w_stdout w) (w_stderr w)).
Proof.
  intros Hv Hc. unfold main, _setup_converter. rewrite Hc.
  destruct (truthy (input args)), (truthy (directory args)); try congruence;
    simpl; destruct (verbose args); unfold logger; simpl;
    now rewrite <- app_assoc.
Qed.


End MoreErrors.

(** ** What no run undoes *)

Lemma open_write_keeps_entries (q : PosixPath) (fs fs' : FS) (s c : string) :
  fs_exists fs q = true -> open_write fs s c = Ok fs' -> fs_exists fs' q = true.
Proof.
  intros Hq Hw. apply open_write_ok in Hw as [-> _]. unfold fs_exists in *.
  destruct (is_anchor q); [reflexivity|]. simpl in *.
  destruct (PosixPath_eq_dec q (Path s)) as [->|Hne].
  - now rewrite fs_lookup_write_same.
  - now rewrite fs_lookup_write_other.
Qed.

Lemma mkdir_exist_ok_keeps_entries (q : PosixPath) (fs fs1 : FS) (p : PosixPath) :
  fs_exists fs q = true -> mkdir_exist_ok fs p = Ok fs1 -> fs_exists fs1 q = true.
Proof.
  intros Hq H. apply mkdir_exist_ok_cases in H as [[_ ->]|(Hl & Ha & ->)]; auto.
  unfold fs_exists in *. rewrite fs_lookup_app.
  destruct (is_anchor q); [reflexivity|]. simpl in *.
  destruct (fs_lookup fs q); [reflexivity | discriminate Hq].
Qed.

Section MainInvariant.

Context {engine : DocumentEngine}.

Variable P : FS -> Prop.
Hypothesis P_write :
  forall fs fs' s c, P fs -> open_write fs s c = Ok fs' -> P fs'.
Hypothesis P_mkdir :
  forall fs fs1 p, P fs -> mkdir_exist_ok fs p = Ok fs1 -> P fs1.

Lemma convert_multiple_files_invariant (self : DoclingConverter)
  (input_dir : string) (output_dir : option string)
  (file_extensions : option (list string)) (w : World) :
  P (w_fs w) ->
  P (w_fs (snd (convert_multiple_files self input_dir output_dir file_extensions w))).
Proof.
  intros H. unfold convert_multiple_files.
  destruct (fs_exists (w_fs w) (Path input_dir)); simpl; [|exact H].
  destruct (mkdir_exist_ok (w_fs w) (batch_output_path (Path input_dir) output_dir))
    as [fs1|e] eqn:Hm; [|exact H].
  rewrite ext_loop_attempts. simpl.
  apply (batch_attempts_invariant self P P_write). simpl. eapply P_mkdir; eauto.
Qed.

Lemma main_invariant (args : Namespace) (w : World) :
  P (w_fs w) -> P (w_fs (snd (main args w))).
Proof.
  intros H. unfold main.
  set (w0 := if verbose args then setLevel DEBUG w else w).
  assert (H0 : P (w_fs w0)) by (unfold w0; destruct (verbose args); exact H).
  destruct (negb (truthy (input args)) && negb (truthy (directory args)));
    [exact H0|].
  destruct (truthy (input args) && truthy (directory args)); [exact H0|].
  unfold _setup_converter.
  destruct (DocumentConverter {| do_ocr := ocr args; do_table_structure := true |});
    [exact H0|].
  match goal with |- context [run_mode ?c args ?w1] =>
    assert (H1 : P (w_fs (snd (run_mode c args w1)))) end.
  { unfold run_mode. destruct (truthy (input args)).
    - match goal with |- context [convert_file ?c ?i ?o ?w1] =>
        pose proof (@convert_file_invariant engine c P P_write i o w1 H0) as Hc;
        destruct (convert_file c i o w1) as [[r|e] w2] end; exact Hc.
    - destruct (truthy (directory args)); [|exact H0].
      match goal with |- context [convert_multiple_files ?c ?i ?o ?x ?w1] =>
        pose proof (convert_multiple_files_invariant c i o x w1 H0) as Hc;
        destruct (convert_multiple_files c i o x w1) as [[r|e] w2] end.
      + simpl in *. unfold print_all.
        assert (Hp : forall ls w', w_fs (fold_left (fun w l => print l w) ls w')
                                   = w_fs w').
        { induction ls as [|l ls IH]; intros w'; simpl; [reflexivity|].
          now rewrite IH. }
        now rewrite Hp.
      + exact Hc. }
  match goal with |- context [run_mode ?c args ?w1] =>
    destruct (run_mode c args w1) as [[u|e] w2] end; simpl in *.
  - destruct (verbose args); exact H1.
  - exact H1.
Qed.

End MainInvariant.

(** X18.  No run of [main] removes anything: a path that exists before
    exists after, a directory is still a directory, and an existing file is
    still a file (its content may have been replaced by a conversion). *)
Theorem main_never_removes {engine : DocumentEngine} (args : Namespace)
  (w : World) (q : PosixPath) :
  let w' := snd (main args w) in
  (fs_exists (w_fs w) q = true -> fs_exists (w_fs w') q = true) /\
  (fs_is_dir (w_fs w) q = true -> fs_is_dir (w_fs w') q = true) /\
  (stays_file q (w_fs w) -> stays_file q (w_fs w')).
Proof.
  intros w'. split; [|split].
  - apply (main_invariant (fun fs => fs_exists fs q = true)).
    + intros fs fs' s c. apply open_write_keeps_entries.
    + intros fs fs1 p. apply mkdir_exist_ok_keeps_entries.
  - apply (main_invariant (stays_dir q)).
    + apply open_write_stays_dir.
    + intros fs fs1 p. apply mkdir_exist_ok_stays_dir.
  - apply (main_invariant (stays_file q)).
    + apply open_write_stays_file.
    + intros fs fs1 p [c Hc] Hm.
      apply mkdir_exist_ok_cases in Hm as [[_ ->]|(_ & _ & ->)]; [now exists c|].
      exists c. now rewrite fs_lookup_app, Hc.
Qed.

(** ** A batch that writes into its own input directory *)

Lemma nth_error_firstn_lt {A : Type} (l : list A) :
  forall i j, i < j -> nth_error (firstn j l) i = nth_error l i.
Proof.
  induction l as [|x l IH]; intros [|i] [|j] H; simpl; try reflexivity; try lia.
  apply IH. lia.
Qed.

Lemma all_attempts_firstn_skipn (tr : list (string * list attempt)) (j : nat) :
  all_attempts tr = all_attempts (firstn j tr) ++ all_attempts (skipn j tr).
Proof.
  unfold all_attempts. now rewrite <- flat_map_app, firstn_skipn.
Qed.

Lemma batch_output_file_name (output_path file_path : PosixPath) :
  wf_path file_path ->
  name (batch_output_file output_path file_path) = (stem file_path ++ ".md")%string /\
  is_anchor (batch_output_file output_path file_path) = false.
Proof.
  intros Hf. unfold batch_output_file, truediv.
  rewrite (@Path_part _ (stem_md_wf_part Hf)). simpl.
  unfold name, is_anchor. simpl. rewrite last_last.
  split; [reflexivity|]. destruct (parts output_path); reflexivity.
Qed.

Lemma mkdir_exist_ok_wf_keys (fs fs1 : FS) (p : PosixPath) :
  wf_path p -> wf_keys fs -> mkdir_exist_ok fs p = Ok fs1 -> wf_keys fs1.
Proof.
  intros Hp Hk Hm. apply mkdir_exist_ok_cases in Hm as [[_ ->]|(_ & _ & ->)]; auto.
  unfold wf_keys, keys in *. rewrite map_app. apply Forall_app.
  split; [exact Hk|]. constructor; [exact Hp | constructor].
Qed.

Section Reconversion.

Context {engine : DocumentEngine}.

Variable self : DoclingConverter.

Lemma convert_file_announces (input_path out : string) (w : World) :
  fs_exists (w_fs w) (Path input_path) = true ->
  In (InfoConverting input_path out)
    (w_log (snd (convert_file self input_path (Some out) w))).
Proof.
  intros Hx. unfold convert_file. rewrite Hx. simpl.
  destruct (convert_and_write self (w_fs w) input_path out); simpl;
    apply in_or_app; left; apply in_or_app; right; now left.
Qed.

Lemma attempt_log_keeps (output_path file_path : PosixPath) (w : World)
  (rec : log_record) :
  In rec (w_log (snd (convert_file self (str file_path)
                        (Some (str (batch_output_file output_path file_path))) w))) ->
  In rec (w_log (att_after (attempt_of self output_path file_path w))).
Proof.
  intros H. unfold attempt_of.
  destruct (convert_file self (str file_path)
              (Some (str (batch_output_file output_path file_path))) w)
    as [[r|e] w']; simpl in *; [exact H|].
  apply in_or_app. now left.
Qed.

Lemma chained_log_keeps (output_path : PosixPath) (rec : log_record)
  (atts : list attempt) :
  forall w : World,
    chained self output_path w atts ->
    In rec (w_log w) -> In rec (w_log (world_after atts w)).
Proof.
  induction atts as [|a atts IH]; intros w Hch H; [exact H|].
  rewrite world_after_cons. destruct Hch as [Ha Hch]. apply IH; [exact Hch|].
  rewrite Ha. apply attempt_log_keeps.
  destruct (convert_file_frame self (str (att_file a))
              (Some (str (batch_output_file output_path (att_file a)))) w)
    as (_ & _ & _ & delta & Hd & _).
  rewrite Hd. apply in_or_app. now left.
Qed.

(** An attempt of a chain, with what comes before and after it. *)
Lemma chained_split (output_path : PosixPath) (atts : list attempt) (w : World)
  (a : attempt) :
  chained self output_path w atts -> In a atts ->
  exists pre post,
    atts = pre ++ a :: post /\
    att_before a = world_after pre w /\
    a = attempt_of self output_path (att_file a) (att_before a) /\
    chained self output_path w pre /\
    chained self output_path (att_after a) post /\
    world_after atts w = world_after post (att_after a).
Proof.
  intros Hch Hin. apply in_split in Hin as (pre & post & ->).
  exists pre, post. split; [reflexivity|].
  apply chained_app_inv in Hch as [Hpre Hch].
  pose proof (chained_head Hch) as Hb. destruct Hch as [Ha Hpost].
  rewrite <- Hb in Ha.
  split; [exact Hb|]. split; [exact Ha|]. split; [exact Hpre|].
  split; [exact Hpost|]. now rewrite world_after_app, world_after_cons.
Qed.

(** X19.  [glob] runs afresh for each extension, on the file system as the
    earlier conversions left it.  So when the output directory is the input
    directory (and the extensions are free of pattern characters), a
    Markdown file that [convert_multiple_files] wrote and returned for one
    extension is itself attempted under every later extension that its name
    [<stem>.md] ends with, [.md] for instance: the log the call leaves
    announces the conversion of its own result. *)
Theorem batch_reconverts_own_output (input_dir : string)
  (file_extensions : option (list string)) (w : World) (fs1 : FS)
  (i j : nat) (ext_i ext_j : string) (atts_i atts_j : list attempt)
  (a : attempt) (r : string) :
  wf_keys (w_fs w) ->
  literal_extensions (extensions_or_default file_extensions) ->
  fs_exists (w_fs w) (Path input_dir) = true ->
  mkdir_exist_ok (w_fs w) (Path input_dir) = Ok fs1 ->
  let tr := batch_trace self input_dir (Some input_dir) file_extensions w in
  let run :=
    convert_multiple_files self input_dir (Some input_dir) file_extensions w in
  nth_error tr i = Some (ext_i, atts_i) ->
  In a atts_i ->
  att_result a = Ok r ->
  i < j ->
  nth_error tr j = Some (ext_j, atts_j) ->
  endswith (stem (att_file a) ++ ".md") ext_j = true ->
  Path r = truediv (Path input_dir) (stem (att_file a) ++ ".md")%string /\
  In (Path r) (map att_file atts_j) /\
  In r (fst_list run) /\
  exists out, In (InfoConverting r out) (w_log (snd run)).
Proof.
  intros Hk _ Hx Hm tr run Hi Ha Hr Hij Hj Hends.
  set (inp := Path input_dir) in *.
  set (exts := extensions_or_default file_extensions).
  set (w1 := set_fs w fs1).
  assert (Htr : tr = batch_attempts self inp inp exts w1).
  { unfold tr, batch_trace. fold inp. rewrite Hx. simpl batch_output_path.
    fold inp. now rewrite Hm. }
  assert (Hrun : run = (Ok (successes (all_attempts tr)),
                        world_after (all_attempts tr) w1)).
  { destruct (@convert_multiple_files_runs engine self input_dir (Some input_dir)
                file_extensions w fs1 Hx Hm) as [_ H]. exact H. }
  assert (Hinp : wf_path inp) by apply Path_wf.
  assert (Hk1 : wf_keys (w_fs w1)) by (eapply mkdir_exist_ok_wf_keys; eauto).
  assert (Hd1 : stays_dir inp (w_fs w1)) by (eapply mkdir_exist_ok_is_dir; eauto).
  pose proof (batch_attempts_chained self inp inp exts w1) as Hall.
  rewrite <- Htr in Hall.
  (* the file of [a] is a parsed path *)
  assert (Hfa : wf_path (att_file a)).
  { rewrite Htr in Hi.
    destruct (batch_attempts_nth self inp inp exts w1 i Hi) as [_ Hatts].
    pose proof (segment_start_invariant self wf_keys open_write_wf_keys inp inp
                  exts w1 i Hk1) as Hki.
    pose proof (in_map att_file _ _ Ha) as Hf.
    rewrite Hatts, file_attempts_files in Hf.
    apply glob_keys in Hf. unfold wf_keys in Hki. rewrite Forall_forall in Hki.
    auto. }
  destruct (batch_output_file_inside Hinp Hfa) as [Hrt Hpar].
  destruct (batch_output_file_name inp Hfa) as [Hname Hanch].
  (* [a] in the run, before the [j]-th extension *)
  assert (Hin_i : In a (all_attempts (firstn j tr))).
  { unfold all_attempts. apply in_flat_map. exists (ext_i, atts_i).
    split; [|exact Ha]. eapply nth_error_In. rewrite nth_error_firstn_lt; eauto. }
  pose proof Hall as Hch.
  rewrite (all_attempts_firstn_skipn tr j) in Hch.
  apply chained_app_inv in Hch as [Hch _].
  destruct (chained_split inp _ w1 a Hch Hin_i)
    as (pre & post & Hsplit & _ & Hcall & _ & Hpost & Hafter).
  assert (Hstart : segment_start tr j w1 = world_after post (att_after a))
    by exact Hafter.
  destruct (@attempt_written engine self inp a r Hcall Hr)
    as (Er & doc & md & _ & _ & Hl).
  assert (Hpr : Path r = batch_output_file inp (att_file a))
    by (rewrite Er; exact Hrt).
  (* the output is listed from then on *)
  assert (Hlisted : stays_listed inp (Path r) (w_fs (att_after a))).
  { apply scandir_In. rewrite Hpr in *. split; [|split; assumption].
    destruct (in_dec PosixPath_eq_dec (batch_output_file inp (att_file a))
                (keys (w_fs (att_after a)))) as [Hin|Hout]; [exact Hin|].
    apply fs_lookup_none in Hout. congruence. }
  pose proof (@chained_invariant engine self (stays_listed inp (Path r)) inp post
                (@open_write_stays_listed inp (Path r)) (att_after a) Hpost Hlisted)
    as Hlj.
  rewrite <- Hstart in Hlj.
  pose proof (segment_start_invariant self (stays_dir inp)
                (@open_write_stays_dir inp) inp inp exts w1 j Hd1) as Hdj.
  rewrite <- Htr in Hdj.
  pose proof Hj as Hj'. rewrite Htr in Hj'.
  destruct (batch_attempts_nth self inp inp exts w1 j Hj') as [_ Hatts].
  rewrite <- Htr in Hatts.
  assert (Hattempted : In (Path r) (map att_file atts_j)).
  { rewrite Hatts, file_attempts_files.
    apply glob_In. split; [exact Hdj|]. split; [exact Hlj|].
    rewrite Hpr, Hname. exact Hends. }
  split; [exact Hpr|]. split; [exact Hattempted|]. split.
  { rewrite Hrun. unfold fst_list. simpl. unfold successes. apply in_flat_map.
    exists a. split.
    - unfold all_attempts. apply in_flat_map. exists (ext_i, atts_i).
      split; [eapply nth_error_In; eauto | exact Ha].
    - rewrite Hr. now left. }
  (* the attempt on the result, and its announcement in the final log *)
  apply in_map_iff in Hattempted as (b & Hfb & Hb).
  assert (Hb_all : In b (all_attempts tr)).
  { unfold all_attempts. apply in_flat_map. exists (ext_j, atts_j).
    split; [eapply nth_error_In; eauto | exact Hb]. }
  destruct (chained_split inp _ w1 b Hall Hb_all)
    as (preb & postb & _ & _ & Hcallb & _ & Hpostb & Hafterb).
  (* the result exists when [b] starts *)
  assert (Hexists : fs_exists (w_fs (att_before b)) (Path r) = true).
  { assert (Hchj : chained self inp (segment_start tr j w1) atts_j)
      by (rewrite Hatts; apply file_attempts_chained).
    destruct (chained_split inp _ _ b Hchj Hb)
      as (pre' & _ & _ & Hbefore & _ & Hpre' & _).
    rewrite Hbefore.
    apply (@chained_invariant engine self (fun fs => fs_exists fs (Path r) = true)
             inp pre').
    - intros fs fs' s0 c. apply open_write_keeps_entries.
    - exact Hpre'.
    - apply scandir_In in Hlj as (Hkey & Hna & _).
      unfold fs_exists. rewrite Hna. simpl.
      destruct (fs_lookup (w_fs (segment_start tr j w1)) (Path r)) eqn:El;
        [reflexivity|].
      apply fs_lookup_none in El. contradiction. }
  assert (Hstr : str (att_file b) = r).
  { rewrite Hfb, Hpr. rewrite Er. reflexivity. }
  exists (str (batch_output_file inp (att_file b))).
  rewrite Hrun. simpl. rewrite Hafterb.
  apply (chained_log_keeps inp _ postb (att_after b) Hpostb).
  assert (Hann : In (InfoConverting r (str (batch_output_file inp (att_file b))))
                   (w_log (att_after
                             (attempt_of self inp (att_file b) (att_before b))))).
  { apply attempt_log_keeps. rewrite Hstr. apply convert_file_announces.
    exact Hexists. }
  rewrite <- Hcallb in Hann. exact Hann.
Qed.

End Reconversion.

(** ** The further properties on the sample file systems *)

Lemma convert_file_failure_keeps_files_witness :
  fs_exists (w_fs sample_world) (Path "docs/b.docx") = true /\
  resolve_output (Path "docs/b.docx") None = Ok "docs/b.md" /\
  @convert stub_engine (converter sample_converter) (w_fs sample_world) "docs/b.docx"
  = Raise (EngineError "corrupt document") /\
  @convert_file stub_engine sample_converter "docs/b.docx" None sample_world
  = (Raise (EngineError "corrupt document"),
     mkWorld sample_fs INFO
       [InfoConverting "docs/b.docx" "docs/b.md";
        ErrorConverting (EngineError "corrupt document")] [] []).
Proof.
  split; [reflexivity|]. split; [reflexivity|]. split; [reflexivity|].
  exact (@convert_file_failure_keeps_files stub_engine sample_converter
           "docs/b.docx" None sample_world "docs/b.md"
           (EngineError "corrupt document") eq_refl eq_refl (or_introl eq_refl)).
Defined.

Lemma markdown_input_overwritten_witness :
  suffix (Path "notes.md") = ".md" /\
  exists w',
    @convert_file stub_engine sample_converter "notes.md" None notes_world
    = (Ok "notes.md", w') /\
    Path "notes.md" = Path "notes.md" /\
    exists doc md,
      @convert stub_engine (converter sample_converter) (w_fs notes_world) "notes.md"
      = Ok doc /\
      @export_to_markdown stub_engine doc = Ok md /\
      fs_lookup (w_fs w') (Path "notes.md") = Some (File md).
Proof.
  split; [reflexivity|]. eexists. split; [vm_compute; reflexivity|].
  exact (@markdown_input_overwritten stub_engine sample_converter "notes.md"
           notes_world _ "notes.md" eq_refl eq_refl).
Defined.

Lemma output_directory_not_made_witness :
  fs_exists (w_fs sample_world) (parent (Path "nowhere/report.md")) = false /\
  is_ok (fst (@convert_file stub_engine sample_converter "report.pdf"
                (Some "nowhere/report.md") sample_world)) = false.
Proof.
  split; [reflexivity|].
  exact (proj1 (@output_directory_not_made stub_engine sample_converter
                  "report.pdf" "nowhere/report.md" sample_world eq_refl)).
Defined.

Lemma batch_nothing_to_convert_witness :
  literal_extensions (extensions_or_default None) /\
  fs_exists (w_fs notes_world) (Path "empty") = true /\
  @convert_multiple_files stub_engine sample_converter "empty" None None notes_world
  = (Ok [], set_fs notes_world (notes_fs ++ [(Path "empty/markdown_output", Dir)])).
Proof.
  split; [exact default_extensions_literal|]. split; [reflexivity|].
  apply (@batch_nothing_to_convert stub_engine sample_converter "empty" None None
           notes_world (notes_fs ++ [(Path "empty/markdown_output", Dir)])
           default_extensions_literal eq_refl eq_refl).
  intros ext Hext. simpl in Hext.
  repeat (destruct Hext as [<-|Hext]; [reflexivity|]). contradiction.
Defined.

Lemma batch_on_a_file_witness :
  literal_extensions (extensions_or_default None) /\
  fs_exists (w_fs notes_world) (Path "plain.txt") = true /\
  fs_is_dir (w_fs notes_world) (Path "plain.txt") = false /\
  @convert_multiple_files stub_engine sample_converter "plain.txt" (Some "out") None
    notes_world
  = (Ok [], set_fs notes_world notes_fs).
Proof.
  split; [exact default_extensions_literal|].
  split; [reflexivity|]. split; [reflexivity|].
  exact (@batch_on_a_file stub_engine sample_converter "plain.txt" (Some "out") None
           notes_world notes_fs default_extensions_literal eq_refl eq_refl eq_refl).
Defined.

Lemma batch_attempts_children_witness :
  literal_extensions (extensions_or_default None) /\
  In (nth 0 sample_attempts no_attempt) sample_attempts /\
  parent (att_file (nth 0 sample_attempts no_attempt)) = Path "docs" /\
  exists f,
    parent f = Path "docs" /\
    "docs/markdown_output/a.md"
    = str (batch_output_file (batch_output_path (Path "docs") None) f).
Proof.
  assert (H : In (nth 0 sample_attempts no_attempt) sample_attempts)
    by (vm_compute; left; reflexivity).
  split; [exact default_extensions_literal|]. split; [exact H|].
  destruct (@batch_attempts_children stub_engine sample_converter "docs" None
              None sample_world default_extensions_literal) as [Hatt Hres].
  split; [exact (proj1 (Hatt _ H))|].
  destruct (Hres ["docs/markdown_output/a.md"; "docs/markdown_output/a.md"]
              (snd (@convert_multiple_files stub_engine sample_converter "docs"
                      None None sample_world))
              "docs/markdown_output/a.md" eq_refl (or_introl eq_refl))
    as (f & (Hp & _) & Hr).
  exists f. split; [exact Hp | exact Hr].
Defined.

Lemma sample_fs_wf_keys : wf_keys sample_fs.
Proof. unfold wf_keys, keys, sample_fs. cbn [map fst]. repeat constructor. Qed.

Lemma batch_writes_inside_output_dir_witness :
  wf_keys (w_fs sample_world) /\
  literal_extensions (extensions_or_default None) /\
  canonical_path (batch_output_path (Path "docs") None) /\
  canonical_path (Path "docs/a.pdf") /\
  fs_lookup
    (w_fs (snd (@convert_multiple_files stub_engine sample_converter "docs" None None
                  sample_world)))
    (Path "docs/a.pdf")
  = Some (File "alpha").
Proof.
  assert (Ho : canonical_path (batch_output_path (Path "docs") None)).
  { split; [apply batch_output_path_wf|]. split; [reflexivity|].
    vm_compute. intros [H|[H|[]]]; discriminate H. }
  assert (Hq : canonical_path (Path "docs/a.pdf")).
  { split; [apply Path_wf|]. split; [reflexivity|].
    vm_compute. intros [H|[H|[]]]; discriminate H. }
  split; [exact sample_fs_wf_keys|]. split; [exact default_extensions_literal|].
  split; [exact Ho|]. split; [exact Hq|].
  transitivity (fs_lookup (w_fs sample_world) (Path "docs/a.pdf")); [|reflexivity].
  apply (@batch_writes_inside_output_dir stub_engine sample_converter "docs" None
           None sample_world
           (snd (@convert_multiple_files stub_engine sample_converter "docs" None
                   None sample_world))
           ["docs/markdown_output/a.md"; "docs/markdown_output/a.md"]
           sample_fs_wf_keys default_extensions_literal).
  - vm_compute. reflexivity.
  - exact Ho.
  - exact Hq.
  - vm_compute. discriminate.
  - vm_compute. discriminate.
Defined.






Lemma main_engine_unavailable_witness :
  truthy (input args_report) <> truthy (directory args_report) /\
  fst (@main broken_engine args_report sample_world) = SystemExit 1.
Proof.
  assert (H : truthy (input args_report) <> truthy (directory args_report))
    by discriminate.
  split; [exact H|].
  rewrite (@main_engine_unavailable broken_engine args_report sample_world
             (EngineError "models not found") H eq_refl).
  reflexivity.
Defined.


Lemma batch_reconverts_own_output_witness :
  wf_keys (w_fs sample_world) /\
  literal_extensions (extensions_or_default (Some [".pdf"; ".md"])) /\
  mkdir_exist_ok (w_fs sample_world) (Path "docs") = Ok sample_fs /\
  map fst reconversion_trace = [".pdf"; ".md"] /\
  In (Path "docs/a.md")
    (map att_file (snd (nth 1 reconversion_trace ("", [])))) /\
  In "docs/a.md"
    (fst_list (@convert_multiple_files stub_engine sample_converter "docs"
                 (Some "docs") (Some [".pdf"; ".md"]) sample_world)) /\
  exists out,
    In (InfoConverting "docs/a.md" out)
      (w_log (snd (@convert_multiple_files stub_engine sample_converter "docs"
                     (Some "docs") (Some [".pdf"; ".md"]) sample_world))).
Proof.
  assert (Hlit : literal_extensions (extensions_or_default (Some [".pdf"; ".md"])))
    by (repeat constructor).
  split; [exact sample_fs_wf_keys|]. split; [exact Hlit|].
  split; [reflexivity|]. split; [reflexivity|].
  assert (Ha : In (nth 0 (snd (nth 0 reconversion_trace ("", []))) no_attempt)
                 (snd (nth 0 reconversion_trace ("", []))))
    by (vm_compute; left; reflexivity).
  exact (proj2 (@batch_reconverts_own_output stub_engine sample_converter "docs"
                  (Some [".pdf"; ".md"]) sample_world sample_fs 0 1 ".pdf" ".md"
                  (snd (nth 0 reconversion_trace ("", [])))
                  (snd (nth 1 reconversion_trace ("", [])))
                  (nth 0 (snd (nth 0 reconversion_trace ("", []))) no_attempt)
                  "docs/a.md" sample_fs_wf_keys Hlit eq_refl eq_refl eq_refl Ha
                  eq_refl (le_n 1) eq_refl eq_refl)).
Defined.
